(** * iamthere: the watch-party synchronisation core

    A shallow embedding of the state-reconciliation code of the
    repository: [extractVideoId] (pages/Room.jsx), the chat functions
    [sendMessage] / [subscribeToMessages] (firebase.js), the
    [useRoomSync] hook (hooks/useRoomSync.js) and the
    [handleStateChange] handler of components/VideoPlayer.jsx.

    Conventions.
    - A JavaScript string is its sequence of UTF-16 code units.
    - Timestamps ([Date.now()], [lastUpdated], [timestamp]) are
      integers (milliseconds).
    - Playback positions are JavaScript numbers; they are idealised
      as exact rationals, so the arithmetic of the seek threshold is
      exact.
    - [null] and [undefined] are both rendered by [None]. *)

From Stdlib Require Import List Bool Arith ZArith NArith QArith Qabs Qround Lia.
From Stdlib Require Import Ascii String Sorted Permutation.
Import ListNotations.

Local Open Scope Z_scope.

(* ====================================================================== *)
(** * JavaScript strings *)
(* ====================================================================== *)

Module JS.

Definition code_unit := N.
Definition jsstring := list code_unit.

(** Literals: an ASCII literal denotes the same code units. *)
Definition js (s : string) : jsstring :=
  List.map N_of_ascii (list_ascii_of_string s).

Fixpoint eqb (a b : jsstring) : bool :=
  match a, b with
  | [], [] => true
  | x :: a', y :: b' => N.eqb x y && eqb a' b'
  | _, _ => false
  end.

(** Truthiness of a string: [!!s]. *)
Definition truthy (s : jsstring) : bool :=
  match s with [] => false | _ :: _ => true end.

(** ECMAScript WhiteSpace and LineTerminator code points, the set
    stripped by [String.prototype.trim]. *)
Definition is_whitespace (c : code_unit) : bool :=
  ((9 <=? c) && (c <=? 13) || (c =? 32) || (c =? 160) || (c =? 5760)
   || (8192 <=? c) && (c <=? 8202) || (c =? 8232) || (c =? 8233)
   || (c =? 8239) || (c =? 8287) || (c =? 12288) || (c =? 65279))%N.

Fixpoint trimStart (s : jsstring) : jsstring :=
  match s with
  | [] => []
  | c :: s' => if is_whitespace c then trimStart s' else s
  end.

Definition trimEnd (s : jsstring) : jsstring := rev (trimStart (rev s)).

Definition trim (s : jsstring) : jsstring := trimEnd (trimStart s).

Fixpoint startsWith (p s : jsstring) : bool :=
  match p, s with
  | [], _ => true
  | x :: p', y :: s' => N.eqb x y && startsWith p' s'
  | _ :: _, [] => false
  end.

Fixpoint includes (sub s : jsstring) : bool :=
  startsWith sub s ||
  match s with
  | [] => false
  | _ :: s' => includes sub s'
  end.

(** [s.split(sep)] for a non-empty separator: [skip] counts the code
    units of a separator occurrence still to be passed over, [cur] is
    the piece being built, reversed. *)
Fixpoint split_go (sep : jsstring) (skip : nat) (cur s : jsstring)
  : list jsstring :=
  match s with
  | [] => [rev cur]
  | c :: s' =>
      match skip with
      | S k => split_go sep k cur s'
      | O => if startsWith sep s
             then rev cur :: split_go sep (List.length sep - 1) [] s'
             else split_go sep 0 (c :: cur) s'
      end
  end.

Definition split (sep s : jsstring) : list jsstring := split_go sep 0 [] s.

(** [s.slice(1)] *)
Definition slice1 (s : jsstring) : jsstring := List.tl s.

End JS.

Import JS.

(* ====================================================================== *)
(** * extractVideoId (pages/Room.jsx) *)
(* ====================================================================== *)

(** The character class [[a-zA-Z0-9_-]]. *)
Definition is_id_char (c : code_unit) : bool :=
  ((97 <=? c) && (c <=? 122) || (65 <=? c) && (c <=? 90)
   || (48 <=? c) && (c <=? 57) || (c =? 95) || (c =? 45))%N.

(** [/^[a-zA-Z0-9_-]{11}$/.test(s)] *)
Definition is_bare_video_id (s : jsstring) : bool :=
  (List.length s =? 11)%nat && forallb is_id_char s.

(** [s.match(/[a-zA-Z0-9_-]{11}/)]: the leftmost run of eleven
    identifier characters, [match[0]]. *)
Fixpoint match_id11 (s : jsstring) : option jsstring :=
  match s with
  | [] => None
  | _ :: s' =>
      if is_bare_video_id (firstn 11 s) then Some (firstn 11 s)
      else match_id11 s'
  end.

(** The parts of a WHATWG [URL] object the function reads. *)
Record URL := {
  hostname : jsstring;
  pathname : jsstring;
  searchParams_get : jsstring -> option jsstring
}.

(** [a[i]?.split('?')[0]] *)
Definition before_query (piece : option jsstring) : option jsstring :=
  match piece with
  | None => None
  | Some p => nth_error (split (js "?") p) 0
  end.

Section ExtractVideoId.

(** [new URL(s)] is the platform's parser; [None] stands for the
    [TypeError] it throws on an invalid URL. *)
Variable parseURL : jsstring -> option URL.

(** The returns inside [if (url.hostname.includes('youtube.com'))]:
    [Some r] when one of them is taken (with value [r], possibly
    [null]), [None] when control leaves the block. *)
Definition youtube_com_returns (url : URL) : option (option jsstring) :=
  if eqb (pathname url) (js "/watch") then
    Some (searchParams_get url (js "v"))
  else if startsWith (js "/embed/") (pathname url) then
    Some (before_query (nth_error (split (js "/embed/") (pathname url)) 1))
  else if startsWith (js "/shorts/") (pathname url) then
    Some (before_query (nth_error (split (js "/shorts/") (pathname url)) 1))
  else None.

Definition extractVideoId (input : option jsstring) : option jsstring :=
  match input with
  | None => None
  | Some input =>
      if negb (truthy input) || negb (truthy (trim input)) then None
      else
        let trimmedInput := trim input in
        if is_bare_video_id trimmedInput then Some trimmedInput
        else
          match parseURL trimmedInput with
          | Some url =>
              match (if includes (js "youtube.com") (hostname url)
                     then youtube_com_returns url else None) with
              | Some r => r
              | None =>
                  if eqb (hostname url) (js "youtu.be")
                  then before_query (Some (slice1 (pathname url)))
                  else None
              end
          | None =>
              (* catch: not a URL; no match falls through to
                 the final [return null] *)
              match_id11 trimmedInput
          end
  end.

End ExtractVideoId.

(* ====================================================================== *)
(** * Stable sorting by an integer key *)
(* ====================================================================== *)

(** [Array.prototype.sort] with the comparator [(a, b) => key(a) - key(b)]
    is a stable sort by ascending key; with integer keys the comparator
    is consistent, so the result is determined: it is the one computed by
    this stable insertion sort. *)
Section SortBy.

Variable A : Type.
Variable key : A -> Z.

(** [x] stood before every element of [l] in the input: it goes in
    front of the first element whose key is not smaller, so that equal
    keys keep their relative order. *)
Fixpoint insert_by (x : A) (l : list A) : list A :=
  match l with
  | [] => [x]
  | y :: l' => if key x <=? key y then x :: l else y :: insert_by x l'
  end.

Fixpoint sort_by (l : list A) : list A :=
  match l with
  | [] => []
  | x :: l' => insert_by x (sort_by l')
  end.

End SortBy.

Arguments insert_by {A} key x l.
Arguments sort_by {A} key l.

(* ====================================================================== *)
(** * Chat (firebase.js: sendMessage, subscribeToMessages;
      useRoomSync: sendChatMessage) *)
(* ====================================================================== *)

(** The value stored under a push key of [rooms/<roomId>/messages]. *)
Record MessageVal := {
  sender : jsstring;
  text : jsstring;
  timestamp : Z
}.

(** [{ id: childSnapshot.key, ...childSnapshot.val() }] *)
Record Message := {
  id : jsstring;
  val : MessageVal
}.

(** A [push] onto the message collection of a room. *)
Record ChatPush := {
  push_room : jsstring;
  push_val : MessageVal
}.

(** [sendMessage(roomId, sender, text)], called when [Date.now()] is [now]. *)
Definition sendMessage (now : Z) (roomId sender text : jsstring) : ChatPush :=
  {| push_room := roomId;
     push_val := {| sender := sender; text := text; timestamp := now |} |}.

(** [sendChatMessage(text)] of the hook: [None] when it returns before
    calling [sendMessage]. *)
Definition sendChatMessage (now : Z) (roomId userName text : jsstring)
  : option ChatPush :=
  if negb (truthy (trim text)) || negb (truthy roomId) || negb (truthy userName)
  then None
  else Some (sendMessage now roomId userName (trim text)).

(** [snapshot.exists()]: the store keeps no empty collection. *)
Definition snapshot_exists {A : Type} (children : list A) : bool :=
  match children with [] => false | _ :: _ => true end.

(** [{ id: childSnapshot.key, ...childSnapshot.val() }] for one child
    (key, value) of the snapshot. *)
Definition message_of (kv : jsstring * MessageVal) : Message :=
  {| id := fst kv; val := snd kv |}.

(** The sort key, [m.timestamp]. *)
Definition sentAt (m : Message) : Z := timestamp (val m).

(** The [onValue] listener of [subscribeToMessages]: the snapshot lists
    the children in the order [snapshot.forEach] visits them; the result
    is the argument of [callback]. *)
Definition messagesListener (snapshot : list (jsstring * MessageVal))
  : list Message :=
  let messages := List.map message_of snapshot in
  if snapshot_exists snapshot
  then sort_by sentAt messages
  else messages.

(* ====================================================================== *)
(** * useRoomSync (hooks/useRoomSync.js) and the player events
      (components/VideoPlayer.jsx) *)
(* ====================================================================== *)

(** The playback record of a room, as stored under [rooms/<roomId>] and
    as held in [roomState]. The room metadata next to it ([createdAt],
    [createdBy], [messages]) is never read by the hook and is left out. *)
Record RoomData := {
  videoId : jsstring;
  isPlaying : bool;
  currentTime : Q;
  lastUpdated : Z;
  updatedBy : jsstring
}.

(** The argument of [updateState]: every field is optional. *)
Record NewState := {
  ns_videoId : option jsstring;
  ns_isPlaying : option bool;
  ns_currentTime : option Q
}.

(** [updatedState], the argument of [updateVideoState]. *)
Record VideoState := {
  vs_videoId : jsstring;
  vs_isPlaying : bool;
  vs_currentTime : Q
}.

(** What the player handle answers at the moment a callback runs. *)
Record PlayerView := {
  getCurrentTime : Q;
  getPlayerState : Z
}.

(** YouTube player states. *)
Definition PLAYING : Z := 1.
Definition PAUSED : Z := 2.
Definition BUFFERING : Z := 3.

(** What the client does to the outside: commands to the player handle,
    and writes to the store ([updateVideoState], stamped with the
    [Date.now()] of the call). *)
Inductive Effect :=
| LoadVideoById (v : jsstring) (startSeconds : Q)
| SeekTo (seconds : Q) (allowSeekAhead : bool)
| PlayVideo
| PauseVideo
| UpdateVideoState (room : jsstring) (vs : VideoState) (stamp : Z) (by_ : jsstring).

Definition is_publish (e : Effect) : bool :=
  match e with UpdateVideoState _ _ _ _ => true | _ => false end.


(** The three bodies given to [setTimeout]. *)
Inductive TimerAction :=
| PauseIfMounted      (* playerRef.current?.pauseVideo()   (own update) *)
| PauseCaptured       (* player.pauseVideo()               (remote update) *)
| ClearRemoteFlag.    (* isRemoteUpdate.current = false *)

Record Timer := {
  due : Z;
  action : TimerAction
}.

(** State and refs of the hook, the two refs of VideoPlayer read by
    [handleStateChange], and the run-time around them: the clock, the
    pending timers (in creation order) and the store writes still
    awaited by [updateState]. *)
Record Client := {
  roomState : RoomData;
  isLoading : bool;
  isConnected : bool;
  error : option jsstring;
  isRemoteUpdate : bool;
  lastProcessedUpdate : Z;
  currentVideoIdRef : jsstring;
  lastReportedTime : Q;
  isSeeking : bool;
  clock : Z;
  timers : list Timer;
  pendingWrites : list VideoState
}.

Definition set_roomState (r : RoomData) (s : Client) : Client :=
  {| roomState := r; isLoading := isLoading s; isConnected := isConnected s;
     error := error s; isRemoteUpdate := isRemoteUpdate s;
     lastProcessedUpdate := lastProcessedUpdate s;
     currentVideoIdRef := currentVideoIdRef s;
     lastReportedTime := lastReportedTime s; isSeeking := isSeeking s;
     clock := clock s; timers := timers s; pendingWrites := pendingWrites s |}.

(** [setIsConnected(true); setIsLoading(false); setError(null)] *)
Definition set_connected (s : Client) : Client :=
  {| roomState := roomState s; isLoading := false; isConnected := true;
     error := None; isRemoteUpdate := isRemoteUpdate s;
     lastProcessedUpdate := lastProcessedUpdate s;
     currentVideoIdRef := currentVideoIdRef s;
     lastReportedTime := lastReportedTime s; isSeeking := isSeeking s;
     clock := clock s; timers := timers s; pendingWrites := pendingWrites s |}.

Definition set_error (e : option jsstring) (s : Client) : Client :=
  {| roomState := roomState s; isLoading := isLoading s;
     isConnected := isConnected s;
     error := e; isRemoteUpdate := isRemoteUpdate s;
     lastProcessedUpdate := lastProcessedUpdate s;
     currentVideoIdRef := currentVideoIdRef s;
     lastReportedTime := lastReportedTime s; isSeeking := isSeeking s;
     clock := clock s; timers := timers s; pendingWrites := pendingWrites s |}.

Definition set_isRemoteUpdate (b : bool) (s : Client) : Client :=
  {| roomState := roomState s; isLoading := isLoading s;
     isConnected := isConnected s;
     error := error s; isRemoteUpdate := b;
     lastProcessedUpdate := lastProcessedUpdate s;
     currentVideoIdRef := currentVideoIdRef s;
     lastReportedTime := lastReportedTime s; isSeeking := isSeeking s;
     clock := clock s; timers := timers s; pendingWrites := pendingWrites s |}.

Definition set_lastProcessedUpdate (t : Z) (s : Client) : Client :=
  {| roomState := roomState s; isLoading := isLoading s;
     isConnected := isConnected s;
     error := error s; isRemoteUpdate := isRemoteUpdate s;
     lastProcessedUpdate := t;
     currentVideoIdRef := currentVideoIdRef s;
     lastReportedTime := lastReportedTime s; isSeeking := isSeeking s;
     clock := clock s; timers := timers s; pendingWrites := pendingWrites s |}.

Definition set_currentVideoIdRef (v : jsstring) (s : Client) : Client :=
  {| roomState := roomState s; isLoading := isLoading s;
     isConnected := isConnected s;
     error := error s; isRemoteUpdate := isRemoteUpdate s;
     lastProcessedUpdate := lastProcessedUpdate s;
     currentVideoIdRef := v;
     lastReportedTime := lastReportedTime s; isSeeking := isSeeking s;
     clock := clock s; timers := timers s; pendingWrites := pendingWrites s |}.

Definition set_lastReportedTime (t : Q) (s : Client) : Client :=
  {| roomState := roomState s; isLoading := isLoading s;
     isConnected := isConnected s;
     error := error s; isRemoteUpdate := isRemoteUpdate s;
     lastProcessedUpdate := lastProcessedUpdate s;
     currentVideoIdRef := currentVideoIdRef s;
     lastReportedTime := t; isSeeking := isSeeking s;
     clock := clock s; timers := timers s; pendingWrites := pendingWrites s |}.

Definition set_isSeeking (b : bool) (s : Client) : Client :=
  {| roomState := roomState s; isLoading := isLoading s;
     isConnected := isConnected s;
     error := error s; isRemoteUpdate := isRemoteUpdate s;
     lastProcessedUpdate := lastProcessedUpdate s;
     currentVideoIdRef := currentVideoIdRef s;
     lastReportedTime := lastReportedTime s; isSeeking := b;
     clock := clock s; timers := timers s; pendingWrites := pendingWrites s |}.

Definition set_clock (t : Z) (s : Client) : Client :=
  {| roomState := roomState s; isLoading := isLoading s;
     isConnected := isConnected s;
     error := error s; isRemoteUpdate := isRemoteUpdate s;
     lastProcessedUpdate := lastProcessedUpdate s;
     currentVideoIdRef := currentVideoIdRef s;
     lastReportedTime := lastReportedTime s; isSeeking := isSeeking s;
     clock := t; timers := timers s; pendingWrites := pendingWrites s |}.

Definition set_timers (l : list Timer) (s : Client) : Client :=
  {| roomState := roomState s; isLoading := isLoading s;
     isConnected := isConnected s;
     error := error s; isRemoteUpdate := isRemoteUpdate s;
     lastProcessedUpdate := lastProcessedUpdate s;
     currentVideoIdRef := currentVideoIdRef s;
     lastReportedTime := lastReportedTime s; isSeeking := isSeeking s;
     clock := clock s; timers := l; pendingWrites := pendingWrites s |}.

Definition set_pendingWrites (l : list VideoState) (s : Client) : Client :=
  {| roomState := roomState s; isLoading := isLoading s;
     isConnected := isConnected s;
     error := error s; isRemoteUpdate := isRemoteUpdate s;
     lastProcessedUpdate := lastProcessedUpdate s;
     currentVideoIdRef := currentVideoIdRef s;
     lastReportedTime := lastReportedTime s; isSeeking := isSeeking s;
     clock := clock s; timers := timers s; pendingWrites := l |}.

(** [setTimeout(body, delay)] *)
Definition setTimeout (body : TimerAction) (delay : Z) (s : Client) : Client :=
  set_timers (timers s ++ [{| due := clock s + delay; action := body |}]) s.

(** The state of a freshly mounted room view, at time [now]. *)
Definition mount (now : Z) : Client :=
  {| roomState := {| videoId := []; isPlaying := false; currentTime := 0%Q;
                     lastUpdated := 0; updatedBy := [] |};
     isLoading := true; isConnected := false; error := None;
     isRemoteUpdate := false; lastProcessedUpdate := 0;
     currentVideoIdRef := [];
     lastReportedTime := 0%Q; isSeeking := false;
     clock := now; timers := []; pendingWrites := [] |}.

(** [x || 0] on a number. *)
Definition or0 (x : Q) : Q := if Qeq_bool x 0 then 0%Q else x.

Definition SEEK_THRESHOLD : Q := 2%Q.

(** [Math.abs(a - b) > threshold] *)
Definition differs_by_more_than (threshold a b : Q) : bool :=
  negb (Qle_bool (Qabs (a - b)) threshold).

Definition is_some {A : Type} (o : option A) : bool :=
  match o with Some _ => true | None => false end.

(** [data.videoId && data.videoId !== currentVideoIdRef.current] *)
Definition is_new_video (data : RoomData) (s : Client) : bool :=
  truthy (videoId data) && negb (eqb (videoId data) (currentVideoIdRef s)).

Section UseRoomSync.

(** The arguments of the hook. *)
Variables roomId userName : jsstring.

(** ** The listener given to [subscribeToRoom] *)

(** [if (isOwnUpdate) { ... return; }] *)
Definition ownUpdate (player : option PlayerView) (data : RoomData)
    (s : Client) : Client * list Effect :=
  let '(s, out) :=
    if is_new_video data s && is_some player then
      let s := set_currentVideoIdRef (videoId data) s in
      let s := if negb (isPlaying data)
               then setTimeout PauseIfMounted 500 s else s in
      (s, [LoadVideoById (videoId data) (or0 (currentTime data))])
    else (s, []) in
  (set_lastProcessedUpdate (lastUpdated data) (set_roomState data s), out).

(** [if (playerRef && playerRef.current) { try { ... } }]: the methods of
    the handle do not throw. *)
Definition updatePlayer (player : option PlayerView) (data : RoomData)
    (s : Client) : Client * list Effect :=
  match player with
  | None => (s, [])
  | Some p =>
      if is_new_video data s then
        let s := set_currentVideoIdRef (videoId data) s in
        let s := if negb (isPlaying data)
                 then setTimeout PauseCaptured 500 s else s in
        (s, [LoadVideoById (videoId data) (or0 (currentTime data))])
      else
        let playerTime := or0 (getCurrentTime p) in
        let seek :=
          if differs_by_more_than SEEK_THRESHOLD playerTime (currentTime data)
          then [SeekTo (currentTime data) true] else [] in
        let isPlayerPlaying := getPlayerState p =? PLAYING in
        let playPause :=
          if isPlaying data && negb isPlayerPlaying then [PlayVideo]
          else if negb (isPlaying data) && isPlayerPlaying then [PauseVideo]
          else [] in
        (s, seek ++ playPause)
  end.

(** The rest of the listener: a remote update. *)
Definition remoteUpdate (player : option PlayerView) (data : RoomData)
    (s : Client) : Client * list Effect :=
  let s := set_isRemoteUpdate true s in
  let s := set_roomState data s in
  let '(s, out) := updatePlayer player data s in
  let s := set_lastProcessedUpdate (lastUpdated data) s in
  (setTimeout ClearRemoteFlag 1000 s, out).

(** [if (!currentVideoIdRef.current && data.videoId) ...] *)
Definition initVideoIdRef (data : RoomData) (s : Client) : Client :=
  if negb (truthy (currentVideoIdRef s)) && truthy (videoId data)
  then set_currentVideoIdRef (videoId data) s else s.

Definition roomListener (player : option PlayerView) (data : RoomData)
    (s : Client) : Client * list Effect :=
  let s := set_connected s in
  let s := initVideoIdRef data s in
  if lastUpdated data <=? lastProcessedUpdate s then (s, [])
  else if eqb (updatedBy data) userName then ownUpdate player data s
  else remoteUpdate player data s.

(** The cleanup of the subscription effect. *)
Definition unsubscribeRoom (s : Client) : Client :=
  set_lastProcessedUpdate 0 (set_currentVideoIdRef [] s).

(** ** Outgoing updates *)

(** [a ?? b] *)
Definition nullish {A : Type} (a : option A) (b : A) : A :=
  match a with Some x => x | None => b end.

(** [updateState(newState)] up to its [await]: the write is issued and
    the function is suspended until the store settles it. *)
Definition updateState (newState : NewState) (s : Client)
  : Client * list Effect :=
  if isRemoteUpdate s then (s, [])
  else if negb (truthy roomId) || negb (truthy userName) then (s, [])
  else
    let updatedState :=
      {| vs_videoId := nullish (ns_videoId newState) (videoId (roomState s));
         vs_isPlaying := nullish (ns_isPlaying newState) (isPlaying (roomState s));
         vs_currentTime := nullish (ns_currentTime newState) (currentTime (roomState s)) |} in
    (set_pendingWrites (pendingWrites s ++ [updatedState]) s,
     [UpdateVideoState roomId updatedState (clock s) userName]).

Fixpoint remove_nth {A : Type} (i : nat) (l : list A) : list A :=
  match l, i with
  | [], _ => []
  | _ :: l', O => l'
  | x :: l', S j => x :: remove_nth j l'
  end.

(** [updateState] after its [await]: the [i]-th awaited write is
    acknowledged ([ok]) or rejected by the store. *)
Definition updateState_resume (i : nat) (ok : bool) (s : Client) : Client :=
  match nth_error (pendingWrites s) i with
  | None => s
  | Some updatedState =>
      let s := set_pendingWrites (remove_nth i (pendingWrites s)) s in
      if ok then
        set_roomState
          {| videoId := vs_videoId updatedState;
             isPlaying := vs_isPlaying updatedState;
             currentTime := vs_currentTime updatedState;
             lastUpdated := clock s;
             updatedBy := userName |} s
      else set_error (Some (js "Failed to sync video state")) s
  end.

Definition sendPlay (currentTime : Q) : Client -> Client * list Effect :=
  updateState {| ns_videoId := None; ns_isPlaying := Some true;
                 ns_currentTime := Some currentTime |}.

Definition sendPause (currentTime : Q) : Client -> Client * list Effect :=
  updateState {| ns_videoId := None; ns_isPlaying := Some false;
                 ns_currentTime := Some currentTime |}.

Definition sendSeek (currentTime : Q) (isPlaying : bool)
  : Client -> Client * list Effect :=
  updateState {| ns_videoId := None; ns_isPlaying := Some isPlaying;
                 ns_currentTime := Some currentTime |}.

Definition loadVideo (videoId : jsstring) : Client -> Client * list Effect :=
  updateState {| ns_videoId := Some videoId; ns_isPlaying := Some true;
                 ns_currentTime := Some 0%Q |}.

(** ** The player's [onStateChange] handler (VideoPlayer.jsx), with
    [onPlay], [onPause], [onSeek] bound by Room.jsx to [sendPlay],
    [sendPause], [sendSeek]. *)
Definition handleStateChange (state : Z) (currentTime : Q) (s : Client)
  : Client * list Effect :=
  if isRemoteUpdate s then (s, [])
  else if state =? PLAYING then
    let '(s, out) :=
      if differs_by_more_than 2 currentTime (lastReportedTime s)
         && negb (isSeeking s)
      then sendSeek currentTime true s
      else sendPlay currentTime s in
    (set_isSeeking false (set_lastReportedTime currentTime s), out)
  else if state =? PAUSED then
    let '(s, out) :=
      if differs_by_more_than 2 currentTime (lastReportedTime s)
      then sendSeek currentTime false (set_isSeeking true s)
      else sendPause currentTime s in
    (set_lastReportedTime currentTime s, out)
  else if state =? BUFFERING then
    if differs_by_more_than 2 currentTime (lastReportedTime s)
    then (set_isSeeking true s, [])
    else (s, [])
  else (s, []).

(** ** Timers *)

Definition fire (mounted : bool) (acc : Client * list Effect) (tm : Timer)
  : Client * list Effect :=
  match action tm with
  | ClearRemoteFlag => (set_isRemoteUpdate false (fst acc), snd acc)
  | PauseCaptured => (fst acc, snd acc ++ [PauseVideo])
  | PauseIfMounted =>
      (fst acc, if mounted then snd acc ++ [PauseVideo] else snd acc)
  end.

(** Time passes until [t]: the timers due by then run, earliest first
    and in creation order among equals. [mounted] tells whether
    [playerRef.current] is set while they run. *)
Definition timePasses (mounted : bool) (t : Z) (s : Client)
  : Client * list Effect :=
  let t := Z.max t (clock s) in
  let ready := sort_by due (filter (fun tm => due tm <=? t) (timers s)) in
  let waiting := filter (fun tm => negb (due tm <=? t)) (timers s) in
  fold_left (fire mounted) ready (set_clock t (set_timers waiting s), []).

(** ** The client as a transition system *)

Inductive Event :=
| RoomSnapshot (player : option PlayerView) (data : RoomData)
| PlayerStateChange (state : Z) (currentTime : Q)
| CallSendPlay (currentTime : Q)
| CallSendPause (currentTime : Q)
| CallSendSeek (currentTime : Q) (isPlaying : bool)
| CallLoadVideo (videoId : jsstring)
| WriteSettled (i : nat) (ok : bool)
| TimePasses (mounted : bool) (t : Z).

Definition step (e : Event) (s : Client) : Client * list Effect :=
  match e with
  | RoomSnapshot player data => roomListener player data s
  | PlayerStateChange state t => handleStateChange state t s
  | CallSendPlay t => sendPlay t s
  | CallSendPause t => sendPause t s
  | CallSendSeek t p => sendSeek t p s
  | CallLoadVideo v => loadVideo v s
  | WriteSettled i ok => (updateState_resume i ok s, [])
  | TimePasses mounted t => timePasses mounted t s
  end.

(** Running a sequence of events, collecting the effects in order. *)
Fixpoint run (es : list Event) (s : Client) : Client * list Effect :=
  match es with
  | [] => (s, [])
  | e :: es' =>
      let r := step e s in
      let r' := run es' (fst r) in
      (fst r', snd r ++ snd r')
  end.

Definition is_time_passing (e : Event) : bool :=
  match e with TimePasses _ _ => true | _ => false end.

(** The remote-update flag is raised at the arrival of every event of
    [es]. *)
Fixpoint suppressed_throughout (es : list Event) (s : Client) : bool :=
  match es with
  | [] => true
  | e :: es' => isRemoteUpdate s && suppressed_throughout es' (fst (step e s))
  end.

End UseRoomSync.

(* ====================================================================== *)
(** * Rooms (firebase.js: generateRoomCode, createRoom, updateVideoState;
      pages/Home.jsx: validateUserName, handleCreateRoom) *)
(* ====================================================================== *)









(** [validateUserName()]: the value returned and the error message left
    on display (empty when the name is accepted). *)
Definition validateUserName (userName : jsstring) : bool * jsstring :=
  if negb (truthy (trim userName))
  then (false, js "Please enter your name to continue")
  else if (List.length (trim userName) <? 2)%nat
  then (false, js "Name must be at least 2 characters")
  else if (20 <? List.length (trim userName))%nat
  then (false, js "Name must be less than 20 characters")
  else (true, []).


(* ====================================================================== *)
(** * The chat box (components/ChatBox.jsx) *)
(* ====================================================================== *)

(** [handleSendMessage()], with [onSendMessage] bound by Room.jsx to
    [sendChatMessage]: the new content of the input field and what is
    pushed to the store. *)
Definition handleSendMessage (now : Z) (roomId userName inputValue : jsstring)
  : jsstring * option ChatPush :=
  if negb (truthy (trim inputValue)) then (inputValue, None)
  else ([], sendChatMessage now roomId userName (trim inputValue)).

(* ====================================================================== *)
(** * The room page (pages/Room.jsx) *)
(* ====================================================================== *)

(** The state of the video URL form. *)
Record VideoForm := {
  videoUrlInput : jsstring;
  isLoadingVideo : bool;
  videoError : jsstring
}.

(** Truthiness of a value that is a string, [null] or [undefined]. *)
Definition truthy_opt (v : option jsstring) : bool :=
  match v with Some s => truthy s | None => false end.

Section RoomPage.

Variables roomId userName : jsstring.
Variable parseURL : jsstring -> option URL.

(** [handleLoadVideo()] *)
Definition handleLoadVideo (form : VideoForm) (s : Client)
  : VideoForm * (Client * list Effect) :=
  match extractVideoId parseURL (Some (videoUrlInput form)) with
  | Some videoId =>
      if truthy videoId then
        ({| videoUrlInput := []; isLoadingVideo := false; videoError := [] |},
         loadVideo roomId userName videoId s)
      else
        ({| videoUrlInput := videoUrlInput form;
            isLoadingVideo := isLoadingVideo form;
            videoError := js "Invalid YouTube URL or video ID" |}, (s, []))
  | None =>
      ({| videoUrlInput := videoUrlInput form;
          isLoadingVideo := isLoadingVideo form;
          videoError := js "Invalid YouTube URL or video ID" |}, (s, []))
  end.

(** [handlePlayerReady(player)]: [mounted] tells whether
    [playerRef.current] is set, and [s] holds the [roomState] of the
    render the handler comes from. *)
Definition handlePlayerReady (mounted : bool) (s : Client)
  : Client * list Effect :=
  if truthy (videoId (roomState s)) && mounted then
    let s' := if negb (isPlaying (roomState s))
              then setTimeout PauseIfMounted 500 s else s in
    (s', [LoadVideoById (videoId (roomState s)) (currentTime (roomState s))])
  else (s, []).

(** [handleMicStatusChange(isMicOn)] *)
Definition handleMicStatusChange (isMicOn : bool) (player : option PlayerView)
    (s : Client) : Client * list Effect :=
  if isMicOn then
    match player with
    | Some p =>
        let currentTime := or0 (getCurrentTime p) in
        let r := sendPause roomId userName currentTime s in
        (fst r, PauseVideo :: snd r)
    | None => (s, [])
    end
  else (s, []).

End RoomPage.

(* ====================================================================== *)
(** * Vocabulary of the further statements *)
(* ====================================================================== *)

Definition is_clear (tm : Timer) : bool :=
  match action tm with ClearRemoteFlag => true | _ => false end.

(** Every pending timer is due within 1000 ms, and a raised flag has
    its timer pending. *)
Definition timers_settle (s : Client) : Prop :=
  Forall (fun tm => clock s < due tm <= clock s + 1000) (timers s) /\
  (isRemoteUpdate s = true -> existsb is_clear (timers s) = true).

(** The event of a snapshot delivered with a given view of the player. *)
Definition snapshot_event (pd : option PlayerView * RoomData) : Event :=
  RoomSnapshot (fst pd) (snd pd).

(** [sub] occurs in [s] as a run of consecutive code units. *)
Definition occurs_in (sub s : jsstring) : Prop :=
  exists before after, s = before ++ sub ++ after.

(** A path segment without slash and without question mark. *)
Definition no_slash_no_query (vid : jsstring) : bool :=
  forallb (fun c => negb (c =? 47)%N && negb (c =? 63)%N) vid.

(** Every store write of [out] is made in [roomId] under the name
    [userName]. *)
Definition written_as (roomId userName : jsstring) (out : list Effect) : Prop :=
  forall room vs stamp by_,
    In (UpdateVideoState room vs stamp by_) out ->
    room = roomId /\ by_ = userName.

(* ====================================================================== *)
(** * Vocabulary of the statements and concrete inputs *)
(* ====================================================================== *)

(** A text of 501 characters. *)
Definition long_text : jsstring := repeat 97%N 501.

(** The two messages of the chat scenario. *)
Definition hi : jsstring * MessageVal :=
  (js "-Nk1", {| sender := js "A"; text := js "hi"; timestamp := 100 |}).
Definition yo : jsstring * MessageVal :=
  (js "-Nk2", {| sender := js "B"; text := js "yo"; timestamp := 105 |}).

(** The two participants and their room. *)
Definition alice : jsstring := js "alice".
Definition bob : jsstring := js "bob".
Definition room : jsstring := js "ROOM01".

(** A snapshot of the room written by [bob]. *)
Definition from_bob (v : string) (playing : bool) (t : Q) (stamp : Z)
  : RoomData :=
  {| videoId := js v; isPlaying := playing; currentTime := t;
     lastUpdated := stamp; updatedBy := bob |}.

(** A mounted player, at position [t] in state [st]. *)
Definition player_at (t : Q) (st : Z) : option PlayerView :=
  Some {| getCurrentTime := t; getPlayerState := st |}.

(** The client of [alice] once the listener has processed the snapshot
    of a room without video, stamped 100. *)
Definition after_empty_room : Client :=
  fst (roomListener alice None (from_bob "" false 0 100) (mount 0)).

(** Two remote updates 600 ms apart, and 500 ms more. *)
Definition rapid_updates : list Event :=
  [ RoomSnapshot (player_at 10 PLAYING) (from_bob "abc12345678" true 10 100);
    TimePasses true 600;
    RoomSnapshot (player_at 10.6 PLAYING) (from_bob "abc12345678" false 60 200);
    TimePasses true 1100 ].


(** A URL parser that knows two addresses. *)
Definition two_links (s : jsstring) : option URL :=
  if eqb s (js "https://youtu.be/dQw4w9WgXcQ") then
    Some {| hostname := js "youtu.be"; pathname := js "/dQw4w9WgXcQ";
            searchParams_get := fun _ => None |}
  else if eqb s (js "https://www.youtube.com/embed/dQw4w9WgXcQ") then
    Some {| hostname := js "www.youtube.com";
            pathname := js "/embed/dQw4w9WgXcQ";
            searchParams_get := fun _ => None |}
  else None.

(* ====================================================================== *)
(** * Properties of the string functions *)
(* ====================================================================== *)

Lemma trimStart_nil_iff (s : jsstring) :
  trimStart s = [] <-> forallb is_whitespace s = true.
Proof.
  induction s as [|c s IH]; simpl.
  - tauto.
  - destruct (is_whitespace c); simpl.
    + exact IH.
    + split; discriminate.
Qed.

Lemma forallb_rev (A : Type) (f : A -> bool) (l : list A) :
  forallb f (rev l) = forallb f l.
Proof.
  induction l as [|x l IH]; simpl; [reflexivity|].
  rewrite forallb_app, IH; simpl.
  rewrite andb_true_r. apply andb_comm.
Qed.

Lemma trimStart_whitespace_only (s : jsstring) :
  forallb is_whitespace (trimStart s) = true -> trimStart s = [].
Proof.
  induction s as [|c s IH]; simpl; [reflexivity|].
  destruct (is_whitespace c) eqn:Hc; [exact IH|].
  simpl. rewrite Hc. discriminate.
Qed.

Lemma trim_nil_iff (s : jsstring) :
  trim s = [] <-> forallb is_whitespace s = true.
Proof.
  unfold trim, trimEnd. split.
  - intros H.
    assert (H1 : trimStart (rev (trimStart s)) = []).
    { destruct (trimStart (rev (trimStart s))); [reflexivity|].
      apply (f_equal (@List.length _)) in H.
      rewrite length_rev in H. discriminate. }
    apply trimStart_nil_iff in H1. rewrite forallb_rev in H1.
    apply trimStart_nil_iff. apply trimStart_whitespace_only. exact H1.
  - intros H. apply trimStart_nil_iff in H. rewrite H. reflexivity.
Qed.

Lemma truthy_false_iff (s : jsstring) : truthy s = false <-> s = [].
Proof. destruct s; simpl; split; congruence. Qed.

Lemma truthy_trim_whitespace (s : jsstring) :
  truthy (trim s) = negb (forallb is_whitespace s).
Proof.
  destruct (forallb is_whitespace s) eqn:H; simpl.
  - apply truthy_false_iff, trim_nil_iff, H.
  - destruct (truthy (trim s)) eqn:T; [reflexivity|].
    apply truthy_false_iff, trim_nil_iff in T. congruence.
Qed.

Lemma eqb_eq (a b : jsstring) : eqb a b = true <-> a = b.
Proof.
  revert b. induction a as [|x a IH]; destruct b as [|y b]; simpl;
    try (split; [discriminate | congruence]); [tauto|].
  rewrite andb_true_iff, N.eqb_eq, IH. split.
  - intros [-> ->]. reflexivity.
  - intros H. injection H as -> ->. split; reflexivity.
Qed.

Lemma eqb_neq (a b : jsstring) : eqb a b = false <-> a <> b.
Proof.
  rewrite <- eqb_eq. destruct (eqb a b); split; congruence.
Qed.

Lemma truthy_true_iff (s : jsstring) : truthy s = true <-> s <> [].
Proof. destruct s; simpl; split; congruence. Qed.

(* ====================================================================== *)
(** * extractVideoId *)
(* ====================================================================== *)

(** C9. [extractVideoId] returns the trimmed input unchanged whenever the
    trimmed input is made of exactly eleven characters of
    [[A-Za-z0-9_-]], and returns [null] on a [null], empty or
    whitespace-only input, whatever the URL parser does. *)
Theorem extractVideoId_canonical_id_and_blank
    (parseURL : jsstring -> option URL) :
  (forall input,
      List.length (trim input) = 11%nat ->
      forallb is_id_char (trim input) = true ->
      extractVideoId parseURL (Some input) = Some (trim input)) /\
  extractVideoId parseURL None = None /\
  (forall input,
      forallb is_whitespace input = true ->
      extractVideoId parseURL (Some input) = None).
Proof.
  split; [|split].
  - intros input Hlen Hid. unfold extractVideoId.
    assert (Ht : truthy (trim input) = true).
    { destruct (trim input); [discriminate Hlen | reflexivity]. }
    assert (Hi : truthy input = true).
    { destruct input; [discriminate Ht | reflexivity]. }
    rewrite Ht, Hi. simpl.
    unfold is_bare_video_id. rewrite Hlen, Hid. reflexivity.
  - reflexivity.
  - intros input Hws. unfold extractVideoId.
    rewrite truthy_trim_whitespace, Hws. simpl.
    rewrite orb_true_r. reflexivity.
Qed.

Lemma extractVideoId_canonical_id_and_blank_witness :
  extractVideoId (fun _ => None) (Some (js "  dQw4w9WgXcQ "))
    = Some (js "dQw4w9WgXcQ")
  /\ extractVideoId (fun _ => None) (Some (js "   ")) = None.
Proof.
  split.
  - apply (proj1 (extractVideoId_canonical_id_and_blank (fun _ => None))
             (js "  dQw4w9WgXcQ ")); reflexivity.
  - apply (proj2 (proj2 (extractVideoId_canonical_id_and_blank (fun _ => None)))
             (js "   ")); reflexivity.
Defined.

(* ====================================================================== *)
(** * Chat *)
(* ====================================================================== *)


(** C8, as stated, fails: a text of 501 characters is pushed. *)
Lemma sendChatMessage_pushes_501_characters :
  (500 < List.length long_text)%nat /\
  sendChatMessage 7 (js "ROOM01") (js "alice") long_text
    = Some (sendMessage 7 (js "ROOM01") (js "alice") long_text).
Proof. split; vm_compute; [lia | reflexivity]. Qed.

(** C8, amended. [sendChatMessage] pushes nothing for an empty or
    whitespace-only text; any other text is pushed, trimmed, whatever its
    length (the hook and [sendMessage] have no length check). *)
Theorem sendChatMessage_rejects_blank_only
    (now : Z) (roomId userName text : jsstring) :
  (forallb is_whitespace text = true ->
     sendChatMessage now roomId userName text = None) /\
  (forallb is_whitespace text = false ->
     truthy roomId = true -> truthy userName = true ->
     sendChatMessage now roomId userName text
       = Some {| push_room := roomId;
                 push_val := {| sender := userName; text := trim text;
                                timestamp := now |} |}).
Proof.
  unfold sendChatMessage. rewrite truthy_trim_whitespace. split.
  - intros ->. reflexivity.
  - intros -> -> ->. reflexivity.
Qed.

Lemma sendChatMessage_rejects_blank_only_witness :
  sendChatMessage 7 (js "ROOM01") (js "alice") (js "  ") = None /\
  sendChatMessage 7 (js "ROOM01") (js "alice") (js " hi ")
    = Some {| push_room := js "ROOM01";
              push_val := {| sender := js "alice"; text := js "hi";
                             timestamp := 7 |} |}.
Proof.
  split.
  - apply (proj1 (sendChatMessage_rejects_blank_only
                    7 (js "ROOM01") (js "alice") (js "  "))).
    reflexivity.
  - apply (proj2 (sendChatMessage_rejects_blank_only
                    7 (js "ROOM01") (js "alice") (js " hi ")));
      reflexivity.
Defined.

Section SortByFacts.

Variable A : Type.
Variable key : A -> Z.

Let le_key (a b : A) : Prop := key a <= key b.

Lemma insert_by_perm (x : A) (l : list A) :
  Permutation (x :: l) (insert_by key x l).
Proof.
  induction l as [|y l IH]; simpl; [reflexivity|].
  destruct (key x <=? key y); [reflexivity|].
  rewrite perm_swap. constructor. exact IH.
Qed.

Lemma sort_by_perm (l : list A) : Permutation l (sort_by key l).
Proof.
  induction l as [|x l IH]; simpl; [constructor|].
  rewrite <- insert_by_perm. constructor. exact IH.
Qed.

Lemma insert_by_sorted (x : A) (l : list A) :
  StronglySorted le_key l -> StronglySorted le_key (insert_by key x l).
Proof.
  induction 1 as [|y l Hs IH Hy]; simpl.
  - repeat constructor.
  - destruct (key x <=? key y) eqn:E.
    + apply Z.leb_le in E. constructor.
      * constructor; assumption.
      * constructor; [exact E|].
        eapply Forall_impl; [|exact Hy].
        intros z Hz. unfold le_key in *. lia.
    + apply Z.leb_gt in E. constructor; [exact IH|].
      eapply Permutation_Forall; [apply insert_by_perm|].
      constructor; [unfold le_key; lia | exact Hy].
Qed.

Lemma sort_by_sorted (l : list A) : StronglySorted le_key (sort_by key l).
Proof.
  induction l as [|x l IH]; simpl; [constructor|].
  apply insert_by_sorted, IH.
Qed.

Lemma sorted_keys (l : list A) :
  StronglySorted le_key l -> StronglySorted Z.le (List.map key l).
Proof.
  induction 1 as [|y l Hs IH Hy]; simpl; constructor; [exact IH|].
  apply Forall_map. exact Hy.
Qed.

End SortByFacts.

(** Two ascending lists of integers with the same elements are equal. *)
Lemma sorted_perm_unique (l1 l2 : list Z) :
  StronglySorted Z.le l1 -> StronglySorted Z.le l2 ->
  Permutation l1 l2 -> l1 = l2.
Proof.
  intros H1. revert l2.
  induction H1 as [|a l1 Hs IH Ha]; intros l2 H2 HP.
  - apply Permutation_nil in HP. congruence.
  - destruct H2 as [|b l2 Hs2 Hb].
    + apply Permutation_sym, Permutation_nil in HP. discriminate.
    + assert (a = b) as <-.
      { assert (In a (b :: l2)) as Hin1
          by (eapply Permutation_in; [exact HP | left; reflexivity]).
        assert (In b (a :: l1)) as Hin2
          by (eapply Permutation_in;
              [apply Permutation_sym; exact HP | left; reflexivity]).
        rewrite Forall_forall in Ha, Hb.
        destruct Hin1 as [->|Hin1]; [reflexivity|].
        destruct Hin2 as [->|Hin2]; [reflexivity|].
        specialize (Ha _ Hin2). specialize (Hb _ Hin1). lia. }
      f_equal. apply IH; [exact Hs2|].
      eapply Permutation_cons_inv. exact HP.
Qed.



Lemma messagesListener_sort (snapshot : list (jsstring * MessageVal)) :
  messagesListener snapshot = sort_by sentAt (List.map message_of snapshot).
Proof. destruct snapshot; reflexivity. Qed.

(** C7. Whatever the collection holds and in whatever order the store
    lists it, the callback of [subscribeToMessages] receives all the
    messages, in ascending order of timestamp; listing the collection in
    another order leaves the sequence of timestamps received unchanged;
    and of two messages the one with the smaller timestamp (100 against
    105) comes first, whichever the store lists first. *)
Theorem messagesListener_sorted_by_timestamp
    (snapshot : list (jsstring * MessageVal)) :
  Permutation (List.map message_of snapshot) (messagesListener snapshot) /\
  StronglySorted (fun a b => sentAt a <= sentAt b) (messagesListener snapshot) /\
  (forall snapshot',
      Permutation snapshot snapshot' ->
      List.map sentAt (messagesListener snapshot')
        = List.map sentAt (messagesListener snapshot)) /\
  (forall a b,
      timestamp (snd a) < timestamp (snd b) ->
      messagesListener [a; b] = [message_of a; message_of b] /\
      messagesListener [b; a] = [message_of a; message_of b]).
Proof.
  rewrite messagesListener_sort. split; [|split; [|split]].
  - apply sort_by_perm.
  - apply sort_by_sorted.
  - intros snapshot' HP. rewrite messagesListener_sort.
    apply sorted_perm_unique.
    + apply sorted_keys, sort_by_sorted.
    + apply sorted_keys, sort_by_sorted.
    + apply Permutation_map.
      rewrite <- !sort_by_perm.
      apply Permutation_map, Permutation_sym, HP.
  - intros a b Hlt. unfold messagesListener, sentAt; simpl.
    destruct (timestamp (snd a) <=? timestamp (snd b)) eqn:E1;
      [|apply Z.leb_gt in E1; lia].
    destruct (timestamp (snd b) <=? timestamp (snd a)) eqn:E2;
      [apply Z.leb_le in E2; lia|].
    split; reflexivity.
Qed.


Lemma messagesListener_sorted_by_timestamp_witness :
  List.map (fun m => text (val m)) (messagesListener [yo; hi])
    = [js "hi"; js "yo"] /\
  List.map sentAt (messagesListener [yo; hi])
    = List.map sentAt (messagesListener [hi; yo]).
Proof.
  split.
  - rewrite (proj2 (proj2 (proj2 (proj2
               (messagesListener_sorted_by_timestamp [hi; yo]))) hi yo
               ltac:(simpl; lia))).
    reflexivity.
  - apply (proj1 (proj2 (proj2
             (messagesListener_sorted_by_timestamp [hi; yo]))) [yo; hi]).
    apply perm_swap.
Defined.

(* ====================================================================== *)
(** * The hook: field-by-field behaviour of the operations *)
(* ====================================================================== *)

Ltac split_ifs :=
  repeat match goal with
         | |- context [if ?b then _ else _] => destruct b eqn:?
         end.

Section HookFacts.

Variables roomId userName : jsstring.

(** *** Timers *)

(** Running timers changes nothing but the remote-update flag. *)
Lemma fire_fold_invariant (P : Client -> Prop) mounted ready :
  (forall s, P s -> P (set_isRemoteUpdate false s)) ->
  forall acc, P (fst acc) -> P (fst (fold_left (fire mounted) ready acc)).
Proof.
  intros HP. induction ready as [|tm ready IH]; intros acc H; simpl.
  - exact H.
  - apply IH. unfold fire. destruct (action tm); simpl; auto.
Qed.

Lemma fire_fold_no_publish mounted ready :
  forall acc, existsb is_publish (snd acc) = false ->
  existsb is_publish (snd (fold_left (fire mounted) ready acc)) = false.
Proof.
  induction ready as [|tm ready IH]; intros acc H; simpl.
  - exact H.
  - apply IH. unfold fire.
    destruct (action tm), mounted; simpl; try exact H;
      rewrite existsb_app, H; reflexivity.
Qed.

Lemma timePasses_lastProcessedUpdate mounted t s :
  lastProcessedUpdate (fst (timePasses mounted t s)) = lastProcessedUpdate s.
Proof.
  unfold timePasses.
  apply (fire_fold_invariant
           (fun c => lastProcessedUpdate c = lastProcessedUpdate s));
    auto.
Qed.

Lemma timePasses_no_publish mounted t s :
  existsb is_publish (snd (timePasses mounted t s)) = false.
Proof. unfold timePasses. apply fire_fold_no_publish. reflexivity. Qed.

(** *** Outgoing updates *)

Lemma updateState_suppressed newState s :
  isRemoteUpdate s = true -> updateState roomId userName newState s = (s, []).
Proof. intros H. unfold updateState. rewrite H. reflexivity. Qed.

Lemma handleStateChange_suppressed state t s :
  isRemoteUpdate s = true ->
  handleStateChange roomId userName state t s = (s, []).
Proof. intros H. unfold handleStateChange. rewrite H. reflexivity. Qed.

Lemma updateState_lastProcessedUpdate newState s :
  lastProcessedUpdate (fst (updateState roomId userName newState s))
    = lastProcessedUpdate s.
Proof. unfold updateState. split_ifs; reflexivity. Qed.

Lemma updateState_roomState newState s :
  roomState (fst (updateState roomId userName newState s)) = roomState s.
Proof. unfold updateState. split_ifs; reflexivity. Qed.

Lemma updateState_resume_lastProcessedUpdate i ok s :
  lastProcessedUpdate (updateState_resume userName i ok s)
    = lastProcessedUpdate s.
Proof.
  unfold updateState_resume.
  destruct (nth_error (pendingWrites s) i); [destruct ok|]; reflexivity.
Qed.

Lemma updateState_resume_isRemoteUpdate i ok s :
  isRemoteUpdate (updateState_resume userName i ok s) = isRemoteUpdate s.
Proof.
  unfold updateState_resume.
  destruct (nth_error (pendingWrites s) i); [destruct ok|]; reflexivity.
Qed.

Lemma handleStateChange_lastProcessedUpdate state t s :
  lastProcessedUpdate (fst (handleStateChange roomId userName state t s))
    = lastProcessedUpdate s.
Proof.
  unfold handleStateChange, sendSeek, sendPlay, sendPause, updateState.
  split_ifs; reflexivity.
Qed.

(** *** The room listener *)

Lemma initVideoIdRef_lastProcessedUpdate d s :
  lastProcessedUpdate (initVideoIdRef d s) = lastProcessedUpdate s.
Proof. unfold initVideoIdRef. split_ifs; reflexivity. Qed.

Lemma initVideoIdRef_isRemoteUpdate d s :
  isRemoteUpdate (initVideoIdRef d s) = isRemoteUpdate s.
Proof. unfold initVideoIdRef. split_ifs; reflexivity. Qed.

Lemma updatePlayer_no_publish player d s :
  existsb is_publish (snd (updatePlayer player d s)) = false.
Proof.
  unfold updatePlayer. destruct player; [|reflexivity].
  split_ifs; reflexivity.
Qed.

Lemma roomListener_no_publish player d s :
  existsb is_publish (snd (roomListener userName player d s)) = false.
Proof.
  unfold roomListener, ownUpdate, remoteUpdate.
  set (s1 := initVideoIdRef d (set_connected s)).
  destruct (lastUpdated d <=? lastProcessedUpdate s1); [reflexivity|].
  destruct (eqb (updatedBy d) userName).
  - split_ifs; reflexivity.
  - pose proof (updatePlayer_no_publish player d
                  (set_roomState d (set_isRemoteUpdate true s1))) as H.
    destruct (updatePlayer player d _); exact H.
Qed.

(** The timestamp kept after a snapshot: the larger of the old one and
    the snapshot's. *)
Lemma roomListener_lastProcessedUpdate player d s :
  lastProcessedUpdate (fst (roomListener userName player d s))
    = if lastUpdated d <=? lastProcessedUpdate s
      then lastProcessedUpdate s else lastUpdated d.
Proof.
  unfold roomListener. cbv zeta.
  rewrite initVideoIdRef_lastProcessedUpdate.
  change (lastProcessedUpdate (set_connected s))
    with (lastProcessedUpdate s).
  set (s1 := initVideoIdRef d (set_connected s)).
  destruct (lastUpdated d <=? lastProcessedUpdate s).
  - exact (initVideoIdRef_lastProcessedUpdate d (set_connected s)).
  - destruct (eqb (updatedBy d) userName).
    + unfold ownUpdate. split_ifs; reflexivity.
    + unfold remoteUpdate. cbv zeta.
      destruct (updatePlayer player d _); reflexivity.
Qed.

(** The flag after a snapshot: raised by a fresh remote update, kept
    otherwise. *)
Lemma updatePlayer_isRemoteUpdate player d s :
  isRemoteUpdate (fst (updatePlayer player d s)) = isRemoteUpdate s.
Proof.
  unfold updatePlayer. destruct player; [|reflexivity].
  split_ifs; reflexivity.
Qed.

Lemma roomListener_isRemoteUpdate player d s :
  isRemoteUpdate (fst (roomListener userName player d s))
    = if lastUpdated d <=? lastProcessedUpdate s then isRemoteUpdate s
      else if eqb (updatedBy d) userName then isRemoteUpdate s
      else true.
Proof.
  unfold roomListener. cbv zeta.
  rewrite initVideoIdRef_lastProcessedUpdate.
  change (lastProcessedUpdate (set_connected s))
    with (lastProcessedUpdate s).
  assert (H1 : isRemoteUpdate (initVideoIdRef d (set_connected s))
               = isRemoteUpdate s)
    by exact (initVideoIdRef_isRemoteUpdate d (set_connected s)).
  set (s1 := initVideoIdRef d (set_connected s)) in *.
  destruct (lastUpdated d <=? lastProcessedUpdate s).
  - exact H1.
  - destruct (eqb (updatedBy d) userName).
    + unfold ownUpdate. split_ifs; exact H1.
    + unfold remoteUpdate. cbv zeta.
      pose proof (updatePlayer_isRemoteUpdate player d
                    (set_roomState d (set_isRemoteUpdate true s1))) as H2.
      destruct (updatePlayer player d _); exact H2.
Qed.

(** *** Steps and runs *)

Lemma step_lastProcessedUpdate_le e s :
  lastProcessedUpdate s
    <= lastProcessedUpdate (fst (step roomId userName e s)).
Proof.
  destruct e; simpl.
  - rewrite roomListener_lastProcessedUpdate.
    destruct (lastUpdated data <=? lastProcessedUpdate s) eqn:E;
      [lia | apply Z.leb_gt in E; lia].
  - rewrite handleStateChange_lastProcessedUpdate. lia.
  - unfold sendPlay. rewrite updateState_lastProcessedUpdate. lia.
  - unfold sendPause. rewrite updateState_lastProcessedUpdate. lia.
  - unfold sendSeek. rewrite updateState_lastProcessedUpdate. lia.
  - unfold loadVideo. rewrite updateState_lastProcessedUpdate. lia.
  - rewrite updateState_resume_lastProcessedUpdate. lia.
  - rewrite timePasses_lastProcessedUpdate. lia.
Qed.

Lemma run_app es1 es2 s :
  run roomId userName (es1 ++ es2) s
    = (fst (run roomId userName es2 (fst (run roomId userName es1 s))),
       snd (run roomId userName es1 s)
         ++ snd (run roomId userName es2 (fst (run roomId userName es1 s)))).
Proof.
  revert s. induction es1 as [|e es1 IH]; intros s; simpl.
  - destruct (run roomId userName es2 s); reflexivity.
  - rewrite IH. simpl. rewrite app_assoc. reflexivity.
Qed.

Lemma run_lastProcessedUpdate_le es s :
  lastProcessedUpdate s
    <= lastProcessedUpdate (fst (run roomId userName es s)).
Proof.
  revert s. induction es as [|e es IH]; intros s; simpl; [lia|].
  pose proof (step_lastProcessedUpdate_le e s).
  specialize (IH (fst (step roomId userName e s))). lia.
Qed.

(** While the flag is raised no step writes to the store. *)
Lemma step_suppressed_no_publish e s :
  isRemoteUpdate s = true ->
  existsb is_publish (snd (step roomId userName e s)) = false.
Proof.
  intros H. destruct e; simpl;
    unfold sendPlay, sendPause, sendSeek, loadVideo;
    rewrite ?updateState_suppressed, ?handleStateChange_suppressed by exact H;
    try reflexivity.
  - apply roomListener_no_publish.
  - apply timePasses_no_publish.
Qed.

(** Only a timer lowers the flag. *)
Lemma step_keeps_isRemoteUpdate e s :
  is_time_passing e = false ->
  isRemoteUpdate s = true ->
  isRemoteUpdate (fst (step roomId userName e s)) = true.
Proof.
  intros He H. destruct e; simpl; try discriminate He;
    unfold sendPlay, sendPause, sendSeek, loadVideo;
    rewrite ?updateState_suppressed, ?handleStateChange_suppressed by exact H;
    try exact H.
  - rewrite roomListener_isRemoteUpdate, H. split_ifs; reflexivity.
  - rewrite updateState_resume_isRemoteUpdate. exact H.
Qed.

Lemma run_suppressed es s :
  forallb (fun e => negb (is_time_passing e)) es = true ->
  isRemoteUpdate s = true ->
  isRemoteUpdate (fst (run roomId userName es s)) = true /\
  existsb is_publish (snd (run roomId userName es s)) = false.
Proof.
  revert s. induction es as [|e es IH]; intros s Hes H; simpl.
  - split; [exact H | reflexivity].
  - simpl in Hes. apply andb_true_iff in Hes. destruct Hes as [He Hes].
    apply negb_true_iff in He.
    destruct (IH (fst (step roomId userName e s)) Hes
                (step_keeps_isRemoteUpdate e s He H)) as [IH1 IH2].
    split; [exact IH1|].
    rewrite existsb_app, IH2, (step_suppressed_no_publish e s H).
    reflexivity.
Qed.

Lemma run_suppressed_throughout es s :
  suppressed_throughout roomId userName es s = true ->
  existsb is_publish (snd (run roomId userName es s)) = false.
Proof.
  revert s. induction es as [|e es IH]; intros s H; simpl; [reflexivity|].
  simpl in H. apply andb_true_iff in H. destruct H as [H1 H2].
  rewrite existsb_app, (IH _ H2), (step_suppressed_no_publish e s H1).
  reflexivity.
Qed.

End HookFacts.

(* ====================================================================== *)
(** * The hook: stale updates, monotonic timestamp, suppression *)
(* ====================================================================== *)

(** C10. Within one subscription the value of [lastProcessedUpdate]
    starts at 0 and never decreases, whatever events the client goes
    through; the listener either leaves it alone or assigns it a
    [data.lastUpdated] strictly above the previous value, in the
    own-update branch as in the remote-update branch. *)
Theorem lastProcessedUpdate_monotone (roomId userName : jsstring) :
  (forall now, lastProcessedUpdate (mount now) = 0) /\
  (forall s player d,
      let s' := fst (roomListener userName player d s) in
      (lastUpdated d <= lastProcessedUpdate s /\
       lastProcessedUpdate s' = lastProcessedUpdate s) \/
      (lastProcessedUpdate s < lastUpdated d /\
       lastProcessedUpdate s' = lastUpdated d)) /\
  (forall e s,
      lastProcessedUpdate s
        <= lastProcessedUpdate (fst (step roomId userName e s))) /\
  (forall es1 es2 s,
      lastProcessedUpdate (fst (run roomId userName es1 s))
        <= lastProcessedUpdate (fst (run roomId userName (es1 ++ es2) s))).
Proof.
  repeat split.
  - intros s player d. cbv zeta.
    rewrite roomListener_lastProcessedUpdate.
    destruct (lastUpdated d <=? lastProcessedUpdate s) eqn:E.
    + left. apply Z.leb_le in E. split; [exact E | reflexivity].
    + right. apply Z.leb_gt in E. split; [exact E | reflexivity].
  - intros e s. apply step_lastProcessedUpdate_le.
  - intros es1 es2 s. rewrite run_app. simpl.
    apply run_lastProcessedUpdate_le.
Qed.

(** C1. While [isRemoteUpdate] is raised, [updateState] and hence
    [sendPlay], [sendPause], [sendSeek], [loadVideo] and the player's
    state-change handler return at once: nothing is written to the store
    and the client (its [roomState] included) is unchanged. Hence, after
    a remote update (fresh, written by somebody else), whatever further
    snapshots, player events, local calls and write acknowledgements
    follow before a timer runs, the flag stays raised and no write to the
    store is issued; and in general a sequence of events each arriving
    while the flag is raised issues no write to the store. *)
Theorem no_echo_while_suppressed (roomId userName : jsstring) :
  (forall s,
      isRemoteUpdate s = true ->
      (forall newState, updateState roomId userName newState s = (s, [])) /\
      (forall t, sendPlay roomId userName t s = (s, [])) /\
      (forall t, sendPause roomId userName t s = (s, [])) /\
      (forall t playing, sendSeek roomId userName t playing s = (s, [])) /\
      (forall v, loadVideo roomId userName v s = (s, [])) /\
      (forall state t, handleStateChange roomId userName state t s = (s, [])) /\
      (forall e, existsb is_publish (snd (step roomId userName e s)) = false)) /\
  (forall s player d es,
      lastProcessedUpdate s < lastUpdated d ->
      updatedBy d <> userName ->
      forallb (fun e => negb (is_time_passing e)) es = true ->
      let r := run roomId userName (RoomSnapshot player d :: es) s in
      isRemoteUpdate (fst r) = true /\
      existsb is_publish (snd r) = false) /\
  (forall es s,
      suppressed_throughout roomId userName es s = true ->
      existsb is_publish (snd (run roomId userName es s)) = false).
Proof.
  split; [|split; [|apply run_suppressed_throughout]].
  - intros s H. repeat split; intros;
      try (apply updateState_suppressed; exact H).
    + apply handleStateChange_suppressed; exact H.
    + apply step_suppressed_no_publish; exact H.
  - intros s player d es Hfresh Hremote Hes. cbv zeta. simpl.
    assert (Hflag : isRemoteUpdate (fst (roomListener userName player d s))
                    = true).
    { rewrite roomListener_isRemoteUpdate.
      apply Z.leb_gt in Hfresh. rewrite Hfresh.
      apply eqb_neq in Hremote. rewrite Hremote. reflexivity. }
    destruct (run_suppressed roomId userName es _ Hes Hflag) as [H1 H2].
    split; [exact H1|].
    rewrite existsb_app, H2, roomListener_no_publish. reflexivity.
Qed.

Lemma no_echo_while_suppressed_witness :
  (let s := fst (roomListener alice (player_at 10 PLAYING)
                   (from_bob "abc12345678" false 60 100) (mount 0)) in
   sendPause room alice 60 s = (s, [])) /\
  (let r := run room alice
              [ RoomSnapshot (player_at 10 PLAYING)
                  (from_bob "abc12345678" false 60 100);
                PlayerStateChange PAUSED 60;
                CallSendPause 60 ] (mount 0) in
   isRemoteUpdate (fst r) = true /\ existsb is_publish (snd r) = false).
Proof.
  split.
  - cbv zeta.
    apply (proj1 (no_echo_while_suppressed room alice)).
    reflexivity.
  - apply (proj1 (proj2 (no_echo_while_suppressed room alice))).
    + simpl. lia.
    + discriminate.
    + reflexivity.
Defined.

(** C2, as stated, fails: a stale update changes the state of the
    engine. The client has processed the snapshot of a room without
    video, stamped 100; an update stamped 90 that carries a video is
    then skipped as old, and yet [currentVideoIdRef] has taken its
    [videoId]. *)
Lemma stale_update_sets_currentVideoIdRef :
  let d := from_bob "abc12345678" true 0 90 in
  lastUpdated d <= lastProcessedUpdate after_empty_room /\
  currentVideoIdRef after_empty_room = [] /\
  currentVideoIdRef (fst (roomListener alice None d after_empty_room))
    = js "abc12345678".
Proof. cbv zeta. vm_compute. repeat split. discriminate. Qed.

Lemma roomListener_stale player userName d s :
  lastUpdated d <= lastProcessedUpdate s ->
  roomListener userName player d s
    = (initVideoIdRef d (set_connected s), []).
Proof.
  intros H. unfold roomListener. cbv zeta.
  rewrite initVideoIdRef_lastProcessedUpdate.
  change (lastProcessedUpdate (set_connected s))
    with (lastProcessedUpdate s).
  apply Z.leb_le in H. rewrite H. reflexivity.
Qed.

(** C2, amended. An update whose [lastUpdated] is not above
    [lastProcessedUpdate] is skipped: no command goes to the player, no
    timer is armed, and [lastProcessedUpdate], the [isRemoteUpdate] flag
    and [roomState] keep their values; what the listener has done before
    the test remains: the connection indicators are refreshed and an
    empty [currentVideoIdRef] takes the update's [videoId]. Consequently
    a snapshot delivered a second time, at any later point, issues no
    command, and of two updates stamped 100 then 90 the second issues
    none and leaves [roomState] as the first made it. *)
Theorem stale_update_skipped (roomId userName : jsstring) :
  (forall s player d,
      lastUpdated d <= lastProcessedUpdate s ->
      let r := roomListener userName player d s in
      snd r = [] /\
      lastProcessedUpdate (fst r) = lastProcessedUpdate s /\
      isRemoteUpdate (fst r) = isRemoteUpdate s /\
      roomState (fst r) = roomState s /\
      timers (fst r) = timers s /\
      pendingWrites (fst r) = pendingWrites s /\
      isConnected (fst r) = true /\ isLoading (fst r) = false /\
      error (fst r) = None /\
      currentVideoIdRef (fst r)
        = if negb (truthy (currentVideoIdRef s)) && truthy (videoId d)
          then videoId d else currentVideoIdRef s) /\
  (forall s player d es player',
      snd (roomListener userName player' d
             (fst (run roomId userName (RoomSnapshot player d :: es) s)))
        = []) /\
  (forall s player1 d1 player2 d2,
      lastUpdated d1 = 100 -> lastUpdated d2 = 90 ->
      let s1 := fst (roomListener userName player1 d1 s) in
      let r := roomListener userName player2 d2 s1 in
      snd r = [] /\ roomState (fst r) = roomState s1 /\
      lastProcessedUpdate (fst r) = lastProcessedUpdate s1).
Proof.
  assert (Hstale : forall s player d,
             lastUpdated d <= lastProcessedUpdate s ->
             let r := roomListener userName player d s in
             snd r = [] /\
             lastProcessedUpdate (fst r) = lastProcessedUpdate s /\
             isRemoteUpdate (fst r) = isRemoteUpdate s /\
             roomState (fst r) = roomState s /\
             timers (fst r) = timers s /\
             pendingWrites (fst r) = pendingWrites s /\
             isConnected (fst r) = true /\ isLoading (fst r) = false /\
             error (fst r) = None /\
             currentVideoIdRef (fst r)
             = if negb (truthy (currentVideoIdRef s)) && truthy (videoId d)
               then videoId d else currentVideoIdRef s).
  { intros s player d H. cbv zeta. rewrite roomListener_stale by exact H.
    unfold initVideoIdRef. simpl.
    destruct (negb (truthy (currentVideoIdRef s)) && truthy (videoId d));
      repeat split. }
  split; [exact Hstale | split].
  - intros s player d es player'.
    apply Hstale. simpl.
    etransitivity; [|apply run_lastProcessedUpdate_le].
    rewrite roomListener_lastProcessedUpdate.
    destruct (lastUpdated d <=? lastProcessedUpdate s) eqn:E;
      [apply Z.leb_le in E; exact E | lia].
  - intros s player1 d1 player2 d2 H1 H2. cbv zeta.
    assert (H : lastUpdated d2
                <= lastProcessedUpdate (fst (roomListener userName player1 d1 s))).
    { rewrite roomListener_lastProcessedUpdate.
      destruct (lastUpdated d1 <=? lastProcessedUpdate s) eqn:E;
        [apply Z.leb_le in E|]; lia. }
    destruct (Hstale _ player2 d2 H) as (A & B & _ & C & _).
    repeat split; assumption.
Qed.

Lemma stale_update_skipped_witness :
  (let d := from_bob "abc12345678" true 0 90 in
   snd (roomListener alice None d after_empty_room) = [] /\
   roomState (fst (roomListener alice None d after_empty_room))
     = roomState after_empty_room) /\
  (let d1 := from_bob "abc12345678" true 10 100 in
   let d2 := from_bob "abc12345678" false 60 90 in
   let s1 := fst (roomListener alice (player_at 10 PLAYING) d1 (mount 0)) in
   let r := roomListener alice (player_at 10 PLAYING) d2 s1 in
   snd r = [] /\ roomState (fst r) = roomState s1 /\
   lastProcessedUpdate (fst r) = lastProcessedUpdate s1).
Proof.
  split.
  - cbv zeta.
    destruct (proj1 (stale_update_skipped room alice) after_empty_room None
                (from_bob "abc12345678" true 0 90))
      as (A & _ & _ & B & _).
    + vm_compute. discriminate.
    + split; [exact A | exact B].
  - apply (proj2 (proj2 (stale_update_skipped room alice))); reflexivity.
Defined.

(* ====================================================================== *)
(** * The hook: what a remote update commands *)
(* ====================================================================== *)



(** The listener on a fresh update written by somebody else. *)
Lemma roomListener_remote userName player d s :
  lastProcessedUpdate s < lastUpdated d ->
  updatedBy d <> userName ->
  roomListener userName player d s
    = remoteUpdate player d (initVideoIdRef d (set_connected s)).
Proof.
  intros Hfresh Hremote. unfold roomListener. cbv zeta.
  rewrite initVideoIdRef_lastProcessedUpdate.
  change (lastProcessedUpdate (set_connected s))
    with (lastProcessedUpdate s).
  apply Z.leb_gt in Hfresh. rewrite Hfresh.
  apply eqb_neq in Hremote. rewrite Hremote. reflexivity.
Qed.

Lemma initVideoIdRef_currentVideoIdRef d s :
  currentVideoIdRef (initVideoIdRef d s)
    = if negb (truthy (currentVideoIdRef s)) && truthy (videoId d)
      then videoId d else currentVideoIdRef s.
Proof. unfold initVideoIdRef. split_ifs; reflexivity. Qed.

(** The pause scenario: the peer publishes "paused at 42.0" while the
    local player is playing at 41.995 on the same video: no seek, one
    pause. *)
Example remote_pause_within_threshold :
  snd (roomListener alice (player_at 41.995 PLAYING)
         (from_bob "abc12345678" false 42 200)
         (fst (roomListener alice (player_at 0 PLAYING)
                 (from_bob "abc12345678" true 0 100) (mount 0))))
    = [PauseVideo].
Proof. reflexivity. Qed.

(** The same update when the local player is 3 seconds behind. *)
Example remote_pause_beyond_threshold :
  snd (roomListener alice (player_at 39 PLAYING)
         (from_bob "abc12345678" false 42 200)
         (fst (roomListener alice (player_at 0 PLAYING)
                 (from_bob "abc12345678" true 0 100) (mount 0))))
    = [SeekTo 42 true; PauseVideo].
Proof. reflexivity. Qed.









(* ====================================================================== *)
(** * The hook: the store write and the settle timer *)
(* ====================================================================== *)

(** C5, on the code: [updateState] awaits the store write before it
    touches [roomState]. After an unsuppressed [sendPlay(10)] the write
    is issued and the projection is still the old one (paused at 0); if
    the store rejects the write the projection never shows the action and
    only the error message is set; the projection changes when, and only
    when, the store acknowledges the write. *)
Theorem updateState_awaits_the_store_write :
  let r := sendPlay room alice 10 (mount 0) in
  isRemoteUpdate (mount 0) = false /\
  snd r = [UpdateVideoState room
             {| vs_videoId := []; vs_isPlaying := true; vs_currentTime := 10 |}
             0 alice] /\
  roomState (fst r) = roomState (mount 0) /\
  isPlaying (roomState (fst r)) = false /\
  roomState (updateState_resume alice 0 false (fst r)) = roomState (mount 0) /\
  error (updateState_resume alice 0 false (fst r))
    = Some (js "Failed to sync video state") /\
  roomState (updateState_resume alice 0 true (fst r))
    = {| videoId := []; isPlaying := true; currentTime := 10;
         lastUpdated := 0; updatedBy := alice |}.
Proof. cbv zeta. repeat split. Qed.

(** C6, on the code: every remote update arms a timer of its own and
    none is cancelled. With two remote updates 600 ms apart, the timer
    of the first runs 1000 ms after the first update and lowers the
    flag, 400 ms into the settle delay of the second: at 1100 ms the
    flag is down (it was up when the second update had just been
    applied), the timer of the second update (due at 1600 ms) is
    still pending, and a [sendPause] made then is written to the
    store. *)
Theorem earlier_timer_clears_suppression :
  let s := fst (run room alice rapid_updates (mount 0)) in
  isRemoteUpdate (fst (run room alice (firstn 3 rapid_updates) (mount 0)))
    = true /\
  clock s = 1100 /\
  lastProcessedUpdate s = 200 /\
  isRemoteUpdate s = false /\
  timers s = [{| due := 1600; action := ClearRemoteFlag |}] /\
  snd (sendPause room alice 60 s)
    = [UpdateVideoState room
         {| vs_videoId := js "abc12345678"; vs_isPlaying := false;
            vs_currentTime := 60 |}
         1100 alice].
Proof. cbv zeta. vm_compute. repeat split. Qed.

(* ====================================================================== *)
(** * Further properties: trimming and the chat box *)
(* ====================================================================== *)

Lemma trimStart_head (s : jsstring) c r :
  trimStart s = c :: r -> is_whitespace c = false.
Proof.
  induction s as [|x s IH]; simpl; [discriminate|].
  destruct (is_whitespace x) eqn:E; [exact IH|].
  intros H. injection H as -> _. exact E.
Qed.

Lemma trimStart_split (s : jsstring) :
  exists pre, s = pre ++ trimStart s /\ forallb is_whitespace pre = true.
Proof.
  induction s as [|x s [pre [IH1 IH2]]]; simpl.
  - exists []. split; reflexivity.
  - destruct (is_whitespace x) eqn:E.
    + exists (x :: pre). simpl. rewrite E, IH2, <- IH1. split; reflexivity.
    + exists []. split; reflexivity.
Qed.

Lemma trimStart_fixed (s : jsstring) :
  option_map is_whitespace (hd_error s) <> Some true -> trimStart s = s.
Proof.
  destruct s as [|c s]; simpl; [reflexivity|].
  destruct (is_whitespace c); [congruence | reflexivity].
Qed.

Lemma trimStart_length (s : jsstring) :
  (List.length (trimStart s) <= List.length s)%nat.
Proof.
  destruct (trimStart_split s) as [pre [H _]].
  rewrite H at 2. rewrite length_app. lia.
Qed.

Lemma hd_error_app_nonempty (A : Type) (a b : list A) :
  a <> [] -> hd_error (a ++ b) = hd_error a.
Proof. destruct a; [congruence | reflexivity]. Qed.

(** A trimmed string that is not empty begins and ends with a code unit
    that is not white space. *)
Lemma trim_ends (s : jsstring) :
  trim s <> [] ->
  option_map is_whitespace (hd_error (trim s)) = Some false /\
  option_map is_whitespace (hd_error (rev (trim s))) = Some false.
Proof.
  unfold trim, trimEnd. intros Hne.
  remember (trimStart s) as u eqn:Hu0.
  destruct (trimStart (rev u)) as [|c w] eqn:Hw; [elim Hne; reflexivity|].
  split.
  - destruct (trimStart_split (rev u)) as [pre [H _]].
    rewrite Hw in H.
    assert (Hu : u = rev (c :: w) ++ rev pre).
    { rewrite <- rev_app_distr, <- H, rev_involutive. reflexivity. }
    rewrite <- (hd_error_app_nonempty _ (rev (c :: w)) (rev pre)) by exact Hne.
    rewrite <- Hu.
    destruct u as [|x r]; [discriminate Hw|].
    simpl. rewrite (trimStart_head s _ _ (eq_sym Hu0)). reflexivity.
  - rewrite rev_involutive. simpl.
    rewrite (trimStart_head _ _ _ Hw). reflexivity.
Qed.

Lemma trim_length (s : jsstring) :
  (List.length (trim s) <= List.length s)%nat.
Proof.
  unfold trim, trimEnd. rewrite length_rev.
  etransitivity; [apply trimStart_length|].
  rewrite length_rev. apply trimStart_length.
Qed.

Lemma trim_fixed (s : jsstring) :
  option_map is_whitespace (hd_error s) <> Some true ->
  option_map is_whitespace (hd_error (rev s)) <> Some true ->
  trim s = s.
Proof.
  intros H1 H2. unfold trim, trimEnd.
  rewrite (trimStart_fixed s H1), (trimStart_fixed (rev s) H2).
  apply rev_involutive.
Qed.

Lemma trim_idempotent (s : jsstring) : trim (trim s) = trim s.
Proof.
  destruct (trim s) as [|c r] eqn:E; [reflexivity|].
  rewrite <- E.
  destruct (trim_ends s) as [H1 H2]; [congruence|].
  apply trim_fixed; congruence.
Qed.

(** X1. Whatever is typed in the chat box, a message goes to the store
    only if the input is not blank, and the text pushed is the trimmed
    input: it is not empty, begins and ends with a character that is
    not white space, is no longer than the input, is signed with the
    user's name and stamped with the time of the call; the input field
    is then emptied. A blank input pushes nothing and stays in the
    field. *)
Theorem handleSendMessage_pushes_trimmed_text
    (now : Z) (roomId userName inputValue : jsstring) :
  (forallb is_whitespace inputValue = true ->
     handleSendMessage now roomId userName inputValue = (inputValue, None)) /\
  (forall p,
     snd (handleSendMessage now roomId userName inputValue) = Some p ->
     fst (handleSendMessage now roomId userName inputValue) = [] /\
     push_room p = roomId /\
     sender (push_val p) = userName /\
     timestamp (push_val p) = now /\
     text (push_val p) = trim inputValue /\
     option_map is_whitespace (hd_error (text (push_val p))) = Some false /\
     option_map is_whitespace (hd_error (rev (text (push_val p)))) = Some false /\
     (1 <= List.length (text (push_val p)) <= List.length inputValue)%nat) /\
  (forallb is_whitespace inputValue = false ->
     truthy roomId = true -> truthy userName = true ->
     snd (handleSendMessage now roomId userName inputValue)
       = Some (sendMessage now roomId userName (trim inputValue))).
Proof.
  unfold handleSendMessage, sendChatMessage.
  rewrite trim_idempotent, truthy_trim_whitespace. split; [|split].
  - intros ->. reflexivity.
  - intros p. destruct (forallb is_whitespace inputValue) eqn:Hws; simpl;
      [discriminate|].
    destruct (negb (truthy roomId) || negb (truthy userName)); simpl;
      [discriminate|].
    intros H. injection H as <-. simpl.
    assert (Hne : trim inputValue <> []).
    { intros E. apply trim_nil_iff in E. congruence. }
    destruct (trim_ends inputValue Hne) as [H1 H2].
    repeat split; try assumption.
    + destruct (trim inputValue); [congruence | simpl; lia].
    + apply trim_length.
  - intros -> -> ->. reflexivity.
Qed.

Lemma handleSendMessage_pushes_trimmed_text_witness :
  snd (handleSendMessage 7 room alice (js "  see you at 8  "))
    = Some (sendMessage 7 room alice (js "see you at 8")) /\
  handleSendMessage 7 room alice (js "   ") = (js "   ", None).
Proof.
  split.
  - apply (proj2 (proj2 (handleSendMessage_pushes_trimmed_text
                           7 room alice (js "  see you at 8  "))));
      reflexivity.
  - apply (proj1 (handleSendMessage_pushes_trimmed_text
                    7 room alice (js "   "))).
    reflexivity.
Defined.

(* ====================================================================== *)
(** * Further properties: the message listener *)
(* ====================================================================== *)

Lemma sort_by_sorted_is_identity (A : Type) (key : A -> Z) (l : list A) :
  StronglySorted (fun a b => key a <= key b) l -> sort_by key l = l.
Proof.
  induction 1 as [|x l Hs IH Hx]; simpl; [reflexivity|].
  rewrite IH. destruct l as [|y l]; [reflexivity|]. simpl.
  inversion Hx as [|? ? Hxy _]; subst.
  apply Z.leb_le in Hxy. rewrite Hxy. reflexivity.
Qed.



(** X2. When the store lists the messages in chronological order (as
    it does for push keys created in that order), the listener hands
    them over in exactly that order, ties included. *)
Theorem messagesListener_keeps_chronological_order
    (snapshot : list (jsstring * MessageVal)) :
  StronglySorted (fun a b => timestamp (snd a) <= timestamp (snd b)) snapshot ->
  messagesListener snapshot = List.map message_of snapshot.
Proof.
  intros H. rewrite messagesListener_sort.
  apply sort_by_sorted_is_identity.
  induction H as [|kv l Hs IH Hkv]; simpl; constructor; [exact IH|].
  apply Forall_map. exact Hkv.
Qed.

Lemma messagesListener_keeps_chronological_order_witness :
  messagesListener [hi; yo] = [message_of hi; message_of yo].
Proof.
  apply (messagesListener_keeps_chronological_order [hi; yo]).
  repeat constructor; simpl; lia.
Defined.



(* ====================================================================== *)
(** * Further properties: room codes and room creation *)
(* ====================================================================== *)








(** X5. [validateUserName] accepts a name exactly when, trimmed, it
    has between 2 and 20 characters (20 included); it then leaves no
    error message, and a blank name is refused with the request to enter
    a name. *)
Theorem validateUserName_accepts_2_to_20 (userName : jsstring) :
  (fst (validateUserName userName) = true <->
     (2 <= List.length (trim userName) <= 20)%nat) /\
  (fst (validateUserName userName) = true ->
     snd (validateUserName userName) = []) /\
  (forallb is_whitespace userName = true ->
     validateUserName userName
       = (false, js "Please enter your name to continue")).
Proof.
  unfold validateUserName. rewrite truthy_trim_whitespace, negb_involutive.
  destruct (forallb is_whitespace userName) eqn:Hws.
  - apply trim_nil_iff in Hws. rewrite Hws. simpl.
    repeat split; try discriminate; try reflexivity. lia.
  - destruct (List.length (trim userName) <? 2)%nat eqn:E2.
    + apply Nat.ltb_lt in E2. simpl.
      repeat split; try discriminate. lia.
    + apply Nat.ltb_ge in E2.
      destruct (20 <? List.length (trim userName))%nat eqn:E20.
      * apply Nat.ltb_lt in E20. simpl.
        repeat split; try discriminate. lia.
      * apply Nat.ltb_ge in E20. simpl.
        repeat split; try discriminate; try reflexivity; lia.
Qed.

Lemma validateUserName_accepts_2_to_20_witness :
  fst (validateUserName (js "  Avni Sharma, the 2nd   ")) = true /\
  validateUserName (js "  ")
    = (false, js "Please enter your name to continue").
Proof.
  split.
  - apply (proj1 (validateUserName_accepts_2_to_20
                    (js "  Avni Sharma, the 2nd   "))).
    vm_compute. split; lia.
  - apply (proj2 (proj2 (validateUserName_accepts_2_to_20 (js "  ")))).
    reflexivity.
Defined.





(* ====================================================================== *)
(** * Further properties: extractVideoId and the video form *)
(* ====================================================================== *)

(** Blank input, for every parser. *)
Lemma extractVideoId_blank (parseURL : jsstring -> option URL)
    (input : jsstring) :
  forallb is_whitespace input = true ->
  extractVideoId parseURL (Some input) = None.
Proof.
  intros Hws. unfold extractVideoId.
  rewrite truthy_trim_whitespace, Hws. simpl.
  rewrite orb_true_r. reflexivity.
Qed.

Lemma match_id11_sound (s r : jsstring) :
  match_id11 s = Some r -> is_bare_video_id r = true /\ occurs_in r s.
Proof.
  revert r. induction s as [|c s IH]; intros r; [discriminate|].
  cbn [match_id11].
  remember (firstn 11 (c :: s)) as f eqn:Hf.
  destruct (is_bare_video_id f) eqn:E.
  - intros H. injection H as H. subst r. split; [exact E|].
    exists [], (skipn 11 (c :: s)). rewrite Hf.
    symmetry. exact (firstn_skipn 11 (c :: s)).
  - intros H. destruct (IH r H) as [Hb [before [after Ho]]].
    split; [exact Hb|].
    exists (c :: before), after. simpl. rewrite Ho. reflexivity.
Qed.

Lemma firstn_bare_prefix (sub after : jsstring) :
  is_bare_video_id sub = true -> firstn 11 (sub ++ after) = sub.
Proof.
  unfold is_bare_video_id. intros H.
  apply andb_true_iff in H. destruct H as [H _].
  apply Nat.eqb_eq in H.
  rewrite firstn_app, H.
  replace (11 - 11)%nat with 0%nat by reflexivity.
  rewrite <- H, firstn_all. simpl. apply app_nil_r.
Qed.

Lemma match_id11_complete (s sub : jsstring) :
  is_bare_video_id sub = true -> occurs_in sub s -> match_id11 s <> None.
Proof.
  intros Hb [before [after ->]].
  induction before as [|c before IH].
  - simpl app.
    assert (Hf := firstn_bare_prefix sub after Hb).
    destruct (sub ++ after) as [|x rest] eqn:E.
    + destruct sub; [vm_compute in Hb; discriminate Hb | discriminate E].
    + cbn [match_id11]. rewrite Hf, Hb. discriminate.
  - change ((c :: before) ++ sub ++ after)
      with (c :: (before ++ sub ++ after)).
    cbn [match_id11].
    destruct (is_bare_video_id (firstn 11 (c :: before ++ sub ++ after)));
      [intros H; discriminate H | exact IH].
Qed.

(** X7. When the input is not a URL (the parser throws),
    [extractVideoId] returns either [null] or eleven consecutive
    characters of [[A-Za-z0-9_-]] taken from the trimmed input, and it
    does return such an identifier whenever the trimmed input contains
    one. *)
Theorem extractVideoId_of_plain_text
    (parseURL : jsstring -> option URL) (input : jsstring) :
  parseURL (trim input) = None ->
  (forall r,
      extractVideoId parseURL (Some input) = Some r ->
      is_bare_video_id r = true /\ occurs_in r (trim input)) /\
  (forall sub,
      is_bare_video_id sub = true -> occurs_in sub (trim input) ->
      extractVideoId parseURL (Some input) <> None).
Proof.
  intros Hp. unfold extractVideoId.
  destruct (negb (truthy input) || negb (truthy (trim input))) eqn:Hblank.
  - split; [discriminate|].
    intros sub Hb [before [after Ho]]. exfalso.
    assert (Ht : truthy (trim input) = true).
    { rewrite Ho. unfold is_bare_video_id in Hb.
      destruct sub; [vm_compute in Hb; discriminate Hb|].
      destruct before; reflexivity. }
    assert (Hi : truthy input = true).
    { destruct input; [discriminate Ht | reflexivity]. }
    rewrite Ht, Hi in Hblank. discriminate.
  - cbv zeta. destruct (is_bare_video_id (trim input)) eqn:Hbare.
    + split; [|discriminate].
      intros r H. injection H as <-. split; [exact Hbare|].
      exists [], []. rewrite app_nil_r. reflexivity.
    + rewrite Hp. split.
      * intros r. apply match_id11_sound.
      * intros sub. apply match_id11_complete.
Qed.

Lemma extractVideoId_of_plain_text_witness :
  extractVideoId (fun _ => None) (Some (js " watch dQw4w9WgXcQ now ")) <> None.
Proof.
  apply (proj2 (extractVideoId_of_plain_text (fun _ => None)
                  (js " watch dQw4w9WgXcQ now ") eq_refl)
           (js "dQw4w9WgXcQ")).
  - reflexivity.
  - exists (js "watch "), (js " now"). reflexivity.
Defined.

(** A string without the first code unit of the separator is not
    split. *)
Lemma split_go_no_separator (c0 : code_unit) (sep' s : jsstring) :
  forallb (fun c => negb (c =? c0)%N) s = true ->
  forall cur, split_go (c0 :: sep') 0 cur s = [rev cur ++ s].
Proof.
  induction s as [|c s IH]; intros H cur.
  - simpl. rewrite app_nil_r. reflexivity.
  - simpl in H. apply andb_true_iff in H. destruct H as [Hc Hs].
    cbn [split_go startsWith].
    apply negb_true_iff in Hc. rewrite N.eqb_sym, Hc. simpl.
    rewrite (IH Hs). simpl. rewrite <- app_assoc. reflexivity.
Qed.

Lemma no_slash_no_query_split (vid : jsstring) :
  no_slash_no_query vid = true ->
  forallb (fun c => negb (c =? 47)%N) vid = true /\
  forallb (fun c => negb (c =? 63)%N) vid = true.
Proof.
  unfold no_slash_no_query. induction vid as [|c vid IH]; simpl.
  - split; reflexivity.
  - intros H. apply andb_true_iff in H. destruct H as [Hc Hv].
    apply andb_true_iff in Hc. destruct Hc as [H1 H2].
    destruct (IH Hv) as [IH1 IH2]. rewrite H1, H2, IH1, IH2.
    split; reflexivity.
Qed.

Lemma before_query_no_query (vid : jsstring) :
  forallb (fun c => negb (c =? 63)%N) vid = true ->
  before_query (Some vid) = Some vid.
Proof.
  intros H. unfold before_query, split.
  change (js "?") with [63%N].
  rewrite (split_go_no_separator 63%N [] vid H). reflexivity.
Qed.

(** X8. For an input that the platform parses as a URL, the function
    returns the identifier carried by the path: the segment after
    [/embed/] or [/shorts/] on a host containing [youtube.com], the
    path without its leading slash on [youtu.be] (the segment having
    no slash and no question mark), and the [v] query parameter for
    the path [/watch]. *)
Theorem extractVideoId_of_video_urls
    (parseURL : jsstring -> option URL) (input : jsstring) (url : URL)
    (vid : jsstring) :
  truthy (trim input) = true ->
  is_bare_video_id (trim input) = false ->
  parseURL (trim input) = Some url ->
  no_slash_no_query vid = true ->
  (hostname url = js "youtu.be" -> pathname url = js "/" ++ vid ->
     extractVideoId parseURL (Some input) = Some vid) /\
  (includes (js "youtube.com") (hostname url) = true ->
     (pathname url = js "/embed/" ++ vid ->
        extractVideoId parseURL (Some input) = Some vid) /\
     (pathname url = js "/shorts/" ++ vid ->
        extractVideoId parseURL (Some input) = Some vid) /\
     (pathname url = js "/watch" ->
        extractVideoId parseURL (Some input) = searchParams_get url (js "v"))).
Proof.
  intros Ht Hbare Hp Hvid.
  destruct (no_slash_no_query_split vid Hvid) as [Hslash Hquery].
  assert (Hi : truthy input = true).
  { destruct input; [discriminate Ht | reflexivity]. }
  unfold extractVideoId. rewrite Ht, Hi. cbn [negb orb]. cbv zeta.
  rewrite Hbare, Hp.
  split; [|intros Hhost; rewrite Hhost; unfold youtube_com_returns;
           split; [|split]].
  - intros Hhost Hpath. rewrite Hhost, Hpath.
    change (includes (js "youtube.com") (js "youtu.be")) with false.
    change (eqb (js "youtu.be") (js "youtu.be")) with true.
    cbv iota. change (slice1 (js "/" ++ vid)) with vid.
    apply before_query_no_query, Hquery.
  - intros Hpath. rewrite Hpath.
    change (js "/embed/") with [47; 101; 109; 98; 101; 100; 47]%N.
    change (js "/watch") with [47; 119; 97; 116; 99; 104]%N.
    cbn [eqb startsWith app N.eqb Pos.eqb andb split split_go List.length
         Nat.sub rev nth_error].
    rewrite (split_go_no_separator 47%N _ vid Hslash []).
    cbn [rev app nth_error].
    apply before_query_no_query, Hquery.
  - intros Hpath. rewrite Hpath.
    change (js "/embed/") with [47; 101; 109; 98; 101; 100; 47]%N.
    change (js "/shorts/") with [47; 115; 104; 111; 114; 116; 115; 47]%N.
    change (js "/watch") with [47; 119; 97; 116; 99; 104]%N.
    cbn [eqb startsWith app N.eqb Pos.eqb andb split split_go List.length
         Nat.sub rev nth_error].
    rewrite (split_go_no_separator 47%N _ vid Hslash []).
    cbn [rev app nth_error].
    apply before_query_no_query, Hquery.
  - intros Hpath. rewrite Hpath.
    change (eqb (js "/watch") (js "/watch")) with true.
    reflexivity.
Qed.

Lemma extractVideoId_of_video_urls_witness :
  extractVideoId two_links (Some (js " https://youtu.be/dQw4w9WgXcQ "))
    = Some (js "dQw4w9WgXcQ") /\
  extractVideoId two_links
    (Some (js "https://www.youtube.com/embed/dQw4w9WgXcQ"))
    = Some (js "dQw4w9WgXcQ").
Proof.
  split.
  - apply (proj1 (extractVideoId_of_video_urls two_links
                    (js " https://youtu.be/dQw4w9WgXcQ ")
                    {| hostname := js "youtu.be";
                       pathname := js "/dQw4w9WgXcQ";
                       searchParams_get := fun _ => None |}
                    (js "dQw4w9WgXcQ")
                    eq_refl eq_refl eq_refl eq_refl));
      reflexivity.
  - apply (proj1 (proj2 (extractVideoId_of_video_urls two_links
                    (js "https://www.youtube.com/embed/dQw4w9WgXcQ")
                    {| hostname := js "www.youtube.com";
                       pathname := js "/embed/dQw4w9WgXcQ";
                       searchParams_get := fun _ => None |}
                    (js "dQw4w9WgXcQ")
                    eq_refl eq_refl eq_refl eq_refl) eq_refl));
      reflexivity.
Defined.

Section VideoForm.

Variables roomId userName : jsstring.
Variable parseURL : jsstring -> option URL.

(** X9. [handleLoadVideo] writes to the store only a video identifier
    that [extractVideoId] returned and that is not empty, always as
    "playing from 0" in the user's room and name, and it sends nothing to
    the player; a blank input leaves the client untouched, keeps the
    input and shows the error message; and when an identifier is found
    the form is cleared and [loadVideo] is called with it. *)
Theorem handleLoadVideo_writes_only_extracted_ids
    (form : VideoForm) (s : Client) :
  let r := handleLoadVideo roomId userName parseURL form s in
  (forall room vs stamp by_,
      In (UpdateVideoState room vs stamp by_) (snd (snd r)) ->
      vs_videoId vs <> [] /\
      extractVideoId parseURL (Some (videoUrlInput form))
        = Some (vs_videoId vs) /\
      vs_isPlaying vs = true /\ vs_currentTime vs = 0%Q /\
      room = roomId /\ by_ = userName /\ stamp = clock s) /\
  forallb is_publish (snd (snd r)) = true /\
  (forallb is_whitespace (videoUrlInput form) = true ->
     r = ({| videoUrlInput := videoUrlInput form;
             isLoadingVideo := isLoadingVideo form;
             videoError := js "Invalid YouTube URL or video ID" |},
          (s, []))) /\
  (forall videoId,
      extractVideoId parseURL (Some (videoUrlInput form)) = Some videoId ->
      videoId <> [] ->
      r = ({| videoUrlInput := []; isLoadingVideo := false;
              videoError := [] |},
           loadVideo roomId userName videoId s)).
Proof.
  cbv zeta. unfold handleLoadVideo. split; [|split; [|split]].
  - intros room0 vs stamp by_.
    destruct (extractVideoId parseURL (Some (videoUrlInput form)))
      as [v|] eqn:E; [|intros []].
    destruct (truthy v) eqn:Tv; [|intros []].
    unfold loadVideo, updateState. simpl.
    destruct (isRemoteUpdate s); [intros []|].
    destruct (negb (truthy roomId) || negb (truthy userName)); [intros []|].
    simpl. intros [H|[]]. injection H as <- <- <- <-. simpl.
    repeat split. apply truthy_true_iff. exact Tv.
  - destruct (extractVideoId parseURL (Some (videoUrlInput form)))
      as [v|]; [|reflexivity].
    destruct (truthy v); [|reflexivity].
    unfold loadVideo, updateState. simpl. split_ifs; reflexivity.
  - intros Hws.
    rewrite (extractVideoId_blank parseURL (videoUrlInput form) Hws).
    reflexivity.
  - intros v E Hv. rewrite E.
    apply truthy_true_iff in Hv. rewrite Hv. reflexivity.
Qed.

End VideoForm.

Lemma handleLoadVideo_writes_only_extracted_ids_witness :
  handleLoadVideo room alice two_links
    {| videoUrlInput := js "  "; isLoadingVideo := false; videoError := [] |}
    (mount 0)
  = ({| videoUrlInput := js "  "; isLoadingVideo := false;
        videoError := js "Invalid YouTube URL or video ID" |},
     (mount 0, [])).
Proof.
  apply (proj1 (proj2 (proj2 (handleLoadVideo_writes_only_extracted_ids
           room alice two_links
           {| videoUrlInput := js "  "; isLoadingVideo := false;
              videoError := [] |} (mount 0))))).
  reflexivity.
Defined.

(* ====================================================================== *)
(** * Further properties of the hook: timers and the suppression window *)
(* ====================================================================== *)

Lemma existsb_perm (A : Type) (f : A -> bool) (l l' : list A) :
  Permutation l l' -> existsb f l = existsb f l'.
Proof.
  induction 1 as [|x l l' _ IH|x y l|l l' l'' _ IH1 _ IH2]; simpl.
  - reflexivity.
  - rewrite IH. reflexivity.
  - destruct (f x), (f y); reflexivity.
  - congruence.
Qed.

Lemma existsb_filter (A : Type) (f p : A -> bool) (l : list A) :
  existsb f (filter p l) = existsb (fun x => p x && f x) l.
Proof.
  induction l as [|x l IH]; simpl; [reflexivity|].
  destruct (p x); simpl; rewrite IH; reflexivity.
Qed.

(** The flag once a batch of timers has run: lowered if one of them
    was a flag timer, unchanged otherwise. *)
Lemma fire_fold_isRemoteUpdate mounted ready :
  forall acc,
    isRemoteUpdate (fst (fold_left (fire mounted) ready acc))
    = if existsb is_clear ready then false else isRemoteUpdate (fst acc).
Proof.
  induction ready as [|tm ready IH]; intros acc; simpl; [reflexivity|].
  rewrite IH. unfold fire, is_clear at 2.
  destruct (action tm); simpl; try reflexivity.
  destruct (existsb is_clear ready); reflexivity.
Qed.

Lemma timePasses_isRemoteUpdate mounted t s :
  isRemoteUpdate (fst (timePasses mounted t s))
  = if existsb (fun tm => (due tm <=? Z.max t (clock s)) && is_clear tm)
         (timers s)
    then false else isRemoteUpdate s.
Proof.
  unfold timePasses. cbv zeta. rewrite fire_fold_isRemoteUpdate.
  rewrite <- (existsb_perm _ is_clear _ _ (sort_by_perm _ due _)).
  rewrite existsb_filter. reflexivity.
Qed.

Lemma timePasses_timers mounted t s :
  timers (fst (timePasses mounted t s))
  = filter (fun tm => negb (due tm <=? Z.max t (clock s))) (timers s).
Proof.
  unfold timePasses. cbv zeta.
  apply (fire_fold_invariant
           (fun c => timers c
                     = filter (fun tm => negb (due tm <=? Z.max t (clock s)))
                         (timers s))); auto.
Qed.

Lemma timePasses_clock mounted t s :
  clock (fst (timePasses mounted t s)) = Z.max t (clock s).
Proof.
  unfold timePasses. cbv zeta.
  apply (fire_fold_invariant (fun c => clock c = Z.max t (clock s))); auto.
Qed.

Section SuppressionWindow.

Variables roomId userName : jsstring.

(** What the operations other than the listener and the timers leave
    alone. *)
Lemma updateState_frame newState s :
  let s' := fst (updateState roomId userName newState s) in
  timers s' = timers s /\ clock s' = clock s /\
  isRemoteUpdate s' = isRemoteUpdate s /\
  currentVideoIdRef s' = currentVideoIdRef s /\
  roomState s' = roomState s.
Proof.
  cbv zeta. unfold updateState. split_ifs; simpl; repeat split; assumption.
Qed.

Lemma handleStateChange_frame state t s :
  let s' := fst (handleStateChange roomId userName state t s) in
  timers s' = timers s /\ clock s' = clock s /\
  isRemoteUpdate s' = isRemoteUpdate s /\
  currentVideoIdRef s' = currentVideoIdRef s /\
  roomState s' = roomState s.
Proof.
  cbv zeta.
  unfold handleStateChange, sendSeek, sendPlay, sendPause, updateState.
  split_ifs; simpl; repeat split; assumption.
Qed.

Lemma updateState_resume_frame i ok s :
  let s' := updateState_resume userName i ok s in
  timers s' = timers s /\ clock s' = clock s /\
  isRemoteUpdate s' = isRemoteUpdate s /\
  currentVideoIdRef s' = currentVideoIdRef s.
Proof.
  cbv zeta. unfold updateState_resume.
  destruct (nth_error (pendingWrites s) i); [destruct ok|];
    simpl; repeat split.
Qed.

(** The timers the listener arms: a pause at 500 ms, the flag timer at
    1000 ms; the flag is raised only together with a flag timer. *)
Lemma roomListener_timers player d s :
  let s' := fst (roomListener userName player d s) in
  clock s' = clock s /\
  exists armed,
    timers s' = timers s ++ armed /\
    Forall (fun tm => due tm = clock s + 500 \/ due tm = clock s + 1000) armed /\
    (isRemoteUpdate s' = true ->
     isRemoteUpdate s = true \/ existsb is_clear armed = true).
Proof.
  unfold roomListener, ownUpdate, remoteUpdate, updatePlayer, initVideoIdRef.
  cbv zeta. destruct player; split_ifs; simpl; (split; [reflexivity|]);
    first
      [ exists []; rewrite app_nil_r;
        split; [reflexivity | split; [constructor | tauto]]
      | eexists; split; [reflexivity|];
        split; [repeat constructor; tauto | simpl; tauto]
      | eexists; split; [rewrite <- app_assoc; reflexivity|];
        split; [repeat constructor; tauto | simpl; tauto] ].
Qed.

Lemma mount_timers_settle now : timers_settle (mount now).
Proof. split; [constructor | discriminate]. Qed.

Lemma step_timers_settle e s :
  timers_settle s -> timers_settle (fst (step roomId userName e s)).
Proof.
  intros [Hdue Hflag]. destruct e; simpl.
  - destruct (roomListener_timers player data s)
      as [Hc [armed [Ht [Ha Hf]]]].
    unfold timers_settle. rewrite Hc, Ht. split.
    + apply Forall_app. split; [exact Hdue|].
      eapply Forall_impl; [|exact Ha]. simpl. intros tm [->| ->]; lia.
    + intros H. rewrite existsb_app.
      destruct (Hf H) as [H1|H1]; [rewrite (Hflag H1)|rewrite H1];
        auto using orb_true_r.
  - destruct (handleStateChange_frame state currentTime0 s)
      as (Ht & Hc & Hf & _).
    unfold timers_settle. rewrite Ht, Hc, Hf. split; assumption.
  - destruct (updateState_frame
                {| ns_videoId := None; ns_isPlaying := Some true;
                   ns_currentTime := Some currentTime0 |} s)
      as (Ht & Hc & Hf & _).
    unfold timers_settle, sendPlay. rewrite Ht, Hc, Hf. split; assumption.
  - destruct (updateState_frame
                {| ns_videoId := None; ns_isPlaying := Some false;
                   ns_currentTime := Some currentTime0 |} s)
      as (Ht & Hc & Hf & _).
    unfold timers_settle, sendPause. rewrite Ht, Hc, Hf. split; assumption.
  - destruct (updateState_frame
                {| ns_videoId := None; ns_isPlaying := Some isPlaying0;
                   ns_currentTime := Some currentTime0 |} s)
      as (Ht & Hc & Hf & _).
    unfold timers_settle, sendSeek. rewrite Ht, Hc, Hf. split; assumption.
  - destruct (updateState_frame
                {| ns_videoId := Some videoId0; ns_isPlaying := Some true;
                   ns_currentTime := Some 0%Q |} s)
      as (Ht & Hc & Hf & _).
    unfold timers_settle, loadVideo. rewrite Ht, Hc, Hf. split; assumption.
  - destruct (updateState_resume_frame i ok s) as (Ht & Hc & Hf & _).
    unfold timers_settle. rewrite Ht, Hc, Hf. split; assumption.
  - unfold timers_settle.
    rewrite timePasses_timers, timePasses_clock, timePasses_isRemoteUpdate.
    split.
    + rewrite Forall_forall in *. intros tm Hin.
      apply filter_In in Hin. destruct Hin as [Hin Hlate].
      apply negb_true_iff, Z.leb_gt in Hlate.
      specialize (Hdue tm Hin). lia.
    + destruct (existsb (fun tm => (due tm <=? Z.max t (clock s)) && is_clear tm)
                  (timers s)) eqn:E;
        [intros H; discriminate H|].
      intros H. specialize (Hflag H).
      rewrite existsb_filter.
      apply existsb_exists in Hflag. destruct Hflag as [tm [Hin Hcl]].
      apply existsb_exists. exists tm. split; [exact Hin|].
      rewrite Hcl, andb_true_r.
      destruct (due tm <=? Z.max t (clock s)) eqn:Hd; [|reflexivity].
      exfalso.
      assert (Hex : existsb
                      (fun tm => (due tm <=? Z.max t (clock s)) && is_clear tm)
                      (timers s) = true).
      { apply existsb_exists. exists tm. rewrite Hd, Hcl. auto. }
      congruence.
Qed.

Lemma run_timers_settle es s :
  timers_settle s -> timers_settle (fst (run roomId userName es s)).
Proof.
  revert s. induction es as [|e es IH]; intros s H; simpl; [exact H|].
  apply IH, step_timers_settle, H.
Qed.

End SuppressionWindow.

(** X10. Suppression never outlasts the settle delay: whatever the
    client has gone through since it was mounted, once 1000 ms have
    passed without a further event no timer is pending and the
    [isRemoteUpdate] flag is down, so that a local pause made then is
    written to the store. *)
Theorem suppression_ends_after_settle_delay
    (roomId userName : jsstring) (now : Z) (es : list Event)
    (mounted : bool) (t : Z) (position : Q) :
  let s := fst (run roomId userName es (mount now)) in
  clock s + 1000 <= t ->
  let s' := fst (timePasses mounted t s) in
  isRemoteUpdate s' = false /\
  timers s' = [] /\
  (truthy roomId = true -> truthy userName = true ->
   snd (sendPause roomId userName position s')
     = [UpdateVideoState roomId
          {| vs_videoId := videoId (roomState s'); vs_isPlaying := false;
             vs_currentTime := position |} (clock s') userName]).
Proof.
  cbv zeta. intros Ht.
  destruct (run_timers_settle roomId userName es _ (mount_timers_settle now))
    as [Hdue Hflag].
  set (s := fst (run roomId userName es (mount now))) in *.
  assert (Htimers : timers (fst (timePasses mounted t s)) = []).
  { rewrite timePasses_timers.
    rewrite Forall_forall in Hdue.
    destruct (filter _ (timers s)) as [|tm l] eqn:E; [reflexivity|].
    assert (Hin : In tm (tm :: l)) by (left; reflexivity).
    rewrite <- E in Hin. apply filter_In in Hin. destruct Hin as [Hin Hlate].
    apply negb_true_iff, Z.leb_gt in Hlate.
    specialize (Hdue tm Hin). lia. }
  assert (Hdown : isRemoteUpdate (fst (timePasses mounted t s)) = false).
  { rewrite timePasses_isRemoteUpdate.
    destruct (existsb (fun tm => (due tm <=? Z.max t (clock s)) && is_clear tm)
                  (timers s)) eqn:E;
      [reflexivity|].
    destruct (isRemoteUpdate s) eqn:F; [|reflexivity].
    exfalso. specialize (Hflag eq_refl).
    apply existsb_exists in Hflag. destruct Hflag as [tm [Hin Hcl]].
    rewrite Forall_forall in Hdue. specialize (Hdue tm Hin).
    assert (Hex : existsb
                    (fun tm => (due tm <=? Z.max t (clock s)) && is_clear tm)
                    (timers s) = true).
    { apply existsb_exists. exists tm. split; [exact Hin|].
      rewrite Hcl, andb_true_r. apply Z.leb_le. lia. }
    congruence. }
  repeat split; try assumption.
  intros Hr Hu. unfold sendPause, updateState.
  rewrite Hdown, Hr, Hu. reflexivity.
Qed.

Lemma suppression_ends_after_settle_delay_witness :
  isRemoteUpdate
    (fst (timePasses true 2100 (fst (run room alice rapid_updates (mount 0)))))
    = false.
Proof.
  apply (suppression_ends_after_settle_delay room alice 0 rapid_updates
           true 2100 0).
  vm_compute. discriminate.
Defined.

Lemma existsb_and_false (A : Type) (f g : A -> bool) (l : list A) :
  existsb f l = false -> existsb (fun x => g x && f x) l = false.
Proof.
  induction l as [|x l IH]; simpl; [reflexivity|].
  intros H. apply orb_false_iff in H. destruct H as [Hx Hl].
  rewrite Hx, andb_false_r, (IH Hl). reflexivity.
Qed.

Lemma initVideoIdRef_timers_clock d s :
  timers (initVideoIdRef d s) = timers s /\
  clock (initVideoIdRef d s) = clock s.
Proof. unfold initVideoIdRef. split_ifs; split; reflexivity. Qed.

Lemma remoteUpdate_timers player d s :
  exists armed,
    timers (fst (remoteUpdate player d s))
      = (timers s ++ armed)
          ++ [{| due := clock s + 1000; action := ClearRemoteFlag |}] /\
    existsb is_clear armed = false.
Proof.
  unfold remoteUpdate, updatePlayer. cbv zeta.
  destruct player; split_ifs; simpl;
    first [ exists []; rewrite app_nil_r; split; reflexivity
          | eexists; split; reflexivity ].
Qed.

(** X11. A remote update received while no flag timer is pending
    suppresses outgoing updates for exactly one settle delay: the flag is
    up from the update until 1000 ms later, and down from then on
    (until the next remote update). *)
Theorem isolated_remote_update_suppresses_for_one_delay
    (userName : jsstring) (s : Client) (player : option PlayerView)
    (d : RoomData) (mounted : bool) (t : Z) :
  lastProcessedUpdate s < lastUpdated d ->
  updatedBy d <> userName ->
  existsb is_clear (timers s) = false ->
  let s1 := fst (roomListener userName player d s) in
  isRemoteUpdate s1 = true /\
  (t < clock s + 1000 ->
     isRemoteUpdate (fst (timePasses mounted t s1)) = true) /\
  (clock s + 1000 <= t ->
     isRemoteUpdate (fst (timePasses mounted t s1)) = false).
Proof.
  intros Hfresh Hremote Hnone. cbv zeta.
  assert (Hup : isRemoteUpdate (fst (roomListener userName player d s)) = true).
  { rewrite roomListener_isRemoteUpdate.
    apply Z.leb_gt in Hfresh. rewrite Hfresh.
    apply eqb_neq in Hremote. rewrite Hremote. reflexivity. }
  destruct (roomListener_timers userName player d s) as [Hclock _].
  cbv zeta in Hclock.
  rewrite !timePasses_isRemoteUpdate, Hup, Hclock.
  rewrite roomListener_remote by assumption.
  destruct (remoteUpdate_timers player d (initVideoIdRef d (set_connected s)))
    as [armed [Ht Ha]].
  destruct (initVideoIdRef_timers_clock d (set_connected s)) as [Ht0 Hc0].
  rewrite Ht0, Hc0 in Ht. simpl in Ht. rewrite Ht, !existsb_app.
  rewrite (existsb_and_false _ is_clear _ (timers s) Hnone).
  rewrite (existsb_and_false _ is_clear _ armed Ha).
  simpl. rewrite andb_true_r, orb_false_r.
  split; [reflexivity|]. split; intros H.
  - destruct (clock s + 1000 <=? Z.max t (clock s)) eqn:E; [|reflexivity].
    apply Z.leb_le in E. lia.
  - destruct (clock s + 1000 <=? Z.max t (clock s)) eqn:E; [reflexivity|].
    apply Z.leb_gt in E. lia.
Qed.

Lemma isolated_remote_update_suppresses_for_one_delay_witness :
  let s1 := fst (roomListener alice (player_at 10 PLAYING)
                   (from_bob "abc12345678" false 60 100) (mount 0)) in
  isRemoteUpdate (fst (timePasses true 999 s1)) = true /\
  isRemoteUpdate (fst (timePasses true 1000 s1)) = false.
Proof.
  cbv zeta.
  destruct (isolated_remote_update_suppresses_for_one_delay
              alice (mount 0) (player_at 10 PLAYING)
              (from_bob "abc12345678" false 60 100) true 999)
    as (_ & H1 & _); [simpl; lia | discriminate | reflexivity |].
  destruct (isolated_remote_update_suppresses_for_one_delay
              alice (mount 0) (player_at 10 PLAYING)
              (from_bob "abc12345678" false 60 100) true 1000)
    as (_ & _ & H2); [simpl; lia | discriminate | reflexivity |].
  split; [apply H1 | apply H2]; simpl; lia.
Defined.

(* ====================================================================== *)
(** * Further properties of the hook: what snapshots do to the client *)
(* ====================================================================== *)

Lemma roomListener_own userName player d s :
  lastProcessedUpdate s < lastUpdated d ->
  updatedBy d = userName ->
  roomListener userName player d s
    = ownUpdate player d (initVideoIdRef d (set_connected s)).
Proof.
  intros Hfresh Hown. unfold roomListener. cbv zeta.
  rewrite initVideoIdRef_lastProcessedUpdate.
  change (lastProcessedUpdate (set_connected s))
    with (lastProcessedUpdate s).
  apply Z.leb_gt in Hfresh. rewrite Hfresh.
  apply eqb_eq in Hown. rewrite Hown. reflexivity.
Qed.

Lemma is_new_video_frame d s s' :
  currentVideoIdRef s' = currentVideoIdRef s ->
  is_new_video d s' = is_new_video d s.
Proof. unfold is_new_video. intros ->. reflexivity. Qed.

(** X12. A fresh snapshot written by the user himself is not treated
    as a remote change: the suppression flag keeps its value and no flag
    timer is armed; [roomState] and [lastProcessedUpdate] take the
    snapshot's values; and the only command the player can receive is the
    loading of the snapshot's video, exactly when that video is new and
    the player is mounted. *)
Theorem own_update_is_not_suppressing
    (userName : jsstring) (s : Client) (player : option PlayerView)
    (d : RoomData) :
  lastProcessedUpdate s < lastUpdated d ->
  updatedBy d = userName ->
  let r := roomListener userName player d s in
  isRemoteUpdate (fst r) = isRemoteUpdate s /\
  existsb is_clear (timers (fst r)) = existsb is_clear (timers s) /\
  roomState (fst r) = d /\
  lastProcessedUpdate (fst r) = lastUpdated d /\
  snd r = if is_new_video d (initVideoIdRef d s) && is_some player
          then [LoadVideoById (videoId d) (or0 (currentTime d))]
          else [].
Proof.
  intros Hfresh Hown. cbv zeta.
  rewrite roomListener_own by assumption.
  unfold ownUpdate.
  assert (Hn : is_new_video d (initVideoIdRef d (set_connected s))
               = is_new_video d (initVideoIdRef d s)).
  { apply is_new_video_frame.
    rewrite !initVideoIdRef_currentVideoIdRef. reflexivity. }
  rewrite Hn.
  destruct (initVideoIdRef_timers_clock d (set_connected s)) as [Ht _].
  pose proof (initVideoIdRef_isRemoteUpdate d (set_connected s)) as Hf.
  simpl in Ht, Hf.
  destruct (is_new_video d (initVideoIdRef d s) && is_some player);
    [destruct (isPlaying d)|]; simpl; rewrite ?Ht, ?Hf, ?existsb_app; simpl;
    rewrite ?orb_false_r; repeat split.
Qed.

Lemma own_update_is_not_suppressing_witness :
  let r := roomListener alice (player_at 0 PLAYING)
             {| videoId := js "xyz12345678"; isPlaying := true;
                currentTime := 0; lastUpdated := 200; updatedBy := alice |}
             (fst (roomListener alice (player_at 0 PLAYING)
                     (from_bob "abc12345678" true 0 100) (mount 0))) in
  isRemoteUpdate (fst r) = true /\
  snd r = [LoadVideoById (js "xyz12345678") 0].
Proof.
  cbv zeta.
  destruct (own_update_is_not_suppressing alice
              (fst (roomListener alice (player_at 0 PLAYING)
                      (from_bob "abc12345678" true 0 100) (mount 0)))
              (player_at 0 PLAYING)
              {| videoId := js "xyz12345678"; isPlaying := true;
                 currentTime := 0; lastUpdated := 200; updatedBy := alice |})
    as (H1 & _ & _ & _ & H2); [simpl; lia | reflexivity |].
  split; [exact H1 | exact H2].
Defined.

Lemma roomListener_fresh_roomState userName player d s :
  lastProcessedUpdate s < lastUpdated d ->
  roomState (fst (roomListener userName player d s)) = d.
Proof.
  intros Hfresh. unfold roomListener. cbv zeta.
  rewrite initVideoIdRef_lastProcessedUpdate.
  change (lastProcessedUpdate (set_connected s))
    with (lastProcessedUpdate s).
  apply Z.leb_gt in Hfresh. rewrite Hfresh.
  destruct (eqb (updatedBy d) userName).
  - unfold ownUpdate. split_ifs; reflexivity.
  - unfold remoteUpdate, updatePlayer. cbv zeta.
    destruct player; split_ifs; reflexivity.
Qed.

(** X13. Snapshots delivered in the order of their timestamps, each
    newer than what the client has processed, are all applied: after the
    last one [roomState] is that snapshot and [lastProcessedUpdate] its
    timestamp, whoever wrote them and whatever the player was doing. *)
Theorem snapshots_in_order_are_all_applied
    (roomId userName : jsstring)
    (earlier : list (option PlayerView * RoomData))
    (last : option PlayerView * RoomData) (s : Client) :
  StronglySorted (fun a b => lastUpdated (snd a) < lastUpdated (snd b))
    (earlier ++ [last]) ->
  Forall (fun pd => lastProcessedUpdate s < lastUpdated (snd pd))
    (earlier ++ [last]) ->
  let s' := fst (run roomId userName
                   (List.map snapshot_event (earlier ++ [last])) s) in
  roomState s' = snd last /\
  lastProcessedUpdate s' = lastUpdated (snd last).
Proof.
  cbv zeta. revert s.
  induction earlier as [|pd earlier IH]; intros s Hs Hf.
  - simpl. inversion Hf as [|? ? Hl _]; subst.
    rewrite roomListener_fresh_roomState by exact Hl.
    rewrite roomListener_lastProcessedUpdate.
    apply Z.leb_gt in Hl. rewrite Hl. split; reflexivity.
  - simpl app in *. simpl.
    inversion Hs as [|? ? Hs' Hlt]; subst.
    inversion Hf as [|? ? Hpd _]; subst.
    apply IH; [exact Hs'|].
    rewrite roomListener_lastProcessedUpdate.
    apply Z.leb_gt in Hpd. rewrite Hpd. exact Hlt.
Qed.

Lemma snapshots_in_order_are_all_applied_witness :
  roomState
    (fst (run room alice
            (List.map snapshot_event
               ([(None, from_bob "abc12345678" true 0 100);
                 (player_at 3 PLAYING, from_bob "abc12345678" false 5 200)]
                ++ [(player_at 5 PAUSED, from_bob "xyz12345678" true 0 300)]))
            (mount 0)))
    = from_bob "xyz12345678" true 0 300.
Proof.
  apply (snapshots_in_order_are_all_applied room alice
           [(None, from_bob "abc12345678" true 0 100);
            (player_at 3 PLAYING, from_bob "abc12345678" false 5 200)]
           (player_at 5 PAUSED, from_bob "xyz12345678" true 0 300)
           (mount 0)).
  - repeat constructor; simpl; lia.
  - repeat constructor; simpl; lia.
Defined.

(* ====================================================================== *)
(** * Further properties of the hook: local actions *)
(* ====================================================================== *)

Lemma updateState_unsuppressed roomId userName newState s :
  isRemoteUpdate s = false ->
  truthy roomId = true -> truthy userName = true ->
  updateState roomId userName newState s
  = (set_pendingWrites
       (pendingWrites s
          ++ [{| vs_videoId := nullish (ns_videoId newState)
                                 (videoId (roomState s));
                 vs_isPlaying := nullish (ns_isPlaying newState)
                                   (isPlaying (roomState s));
                 vs_currentTime := nullish (ns_currentTime newState)
                                     (currentTime (roomState s)) |}]) s,
     [UpdateVideoState roomId
        {| vs_videoId := nullish (ns_videoId newState) (videoId (roomState s));
           vs_isPlaying := nullish (ns_isPlaying newState)
                             (isPlaying (roomState s));
           vs_currentTime := nullish (ns_currentTime newState)
                               (currentTime (roomState s)) |}
        (clock s) userName]).
Proof.
  intros Hf Hr Hu. unfold updateState. rewrite Hf, Hr, Hu. reflexivity.
Qed.



(** X15. A video announced before the player exists is loaded when the
    player becomes ready. A fresh snapshot carrying a video, received
    while no player is mounted, sends no command and arms no pause; the
    ready handler then loads exactly that video at the snapshot's
    position, and schedules a pause 500 ms later when the snapshot says
    paused. *)
Theorem first_video_is_loaded_on_player_ready
    (userName : jsstring) (s : Client) (d : RoomData) :
  lastProcessedUpdate s < lastUpdated d ->
  videoId d <> [] ->
  let r := roomListener userName None d s in
  let ready := handlePlayerReady true (fst r) in
  snd r = [] /\
  Forall (fun tm => action tm = ClearRemoteFlag)
    (skipn (List.length (timers s)) (timers (fst r))) /\
  snd ready = [LoadVideoById (videoId d) (currentTime d)] /\
  timers (fst ready)
    = timers (fst r)
        ++ (if isPlaying d then []
            else [{| due := clock s + 500; action := PauseIfMounted |}]) /\
  handlePlayerReady false (fst r) = (fst r, []).
Proof.
  intros Hfresh Hv. cbv zeta.
  assert (Hrs := roomListener_fresh_roomState userName None d s Hfresh).
  destruct (roomListener_timers userName None d s) as [Hc _].
  cbv zeta in Hc.
  apply truthy_true_iff in Hv.
  assert (Hready : forall m,
            handlePlayerReady m (fst (roomListener userName None d s))
            = if m
              then ((if negb (isPlaying d)
                     then setTimeout PauseIfMounted 500
                            (fst (roomListener userName None d s))
                     else fst (roomListener userName None d s)),
                    [LoadVideoById (videoId d) (currentTime d)])
              else (fst (roomListener userName None d s), [])).
  { intros m. unfold handlePlayerReady. rewrite Hrs, Hv.
    destruct m; reflexivity. }
  rewrite !Hready.
  split; [|split; [|split; [reflexivity|split; [|reflexivity]]]].
  - unfold roomListener, ownUpdate, remoteUpdate, updatePlayer. cbv zeta.
    unfold is_some. rewrite andb_false_r. split_ifs; reflexivity.
  - unfold roomListener, ownUpdate, remoteUpdate, updatePlayer,
      initVideoIdRef. cbv zeta.
    unfold is_some. rewrite !andb_false_r. split_ifs; simpl;
      rewrite ?skipn_app, ?skipn_all, ?Nat.sub_diag; simpl;
      repeat constructor.
  - destruct (isPlaying d); simpl; [rewrite app_nil_r; reflexivity|].
    unfold setTimeout. simpl. rewrite Hc. reflexivity.
Qed.

Lemma first_video_is_loaded_on_player_ready_witness :
  snd (handlePlayerReady true
         (fst (roomListener alice None
                 (from_bob "abc12345678" false 42 100) (mount 0))))
    = [LoadVideoById (js "abc12345678") 42].
Proof.
  destruct (first_video_is_loaded_on_player_ready alice (mount 0)
              (from_bob "abc12345678" false 42 100))
    as (_ & _ & H & _); [simpl; lia | discriminate | exact H].
Defined.



(** X17. Turning the microphone on pauses the local player whenever it
    is mounted, at once; the pause reaches the peer (one write, "paused"
    at the player's position, video unchanged) only outside the
    suppression window: within it the local player is paused and nothing
    is written. Turning the microphone off, or on without a player, does
    nothing. *)
Theorem mic_on_pauses_locally_and_reports
    (roomId userName : jsstring) (s : Client) (p : PlayerView) :
  handleMicStatusChange roomId userName false (Some p) s = (s, []) /\
  handleMicStatusChange roomId userName true None s = (s, []) /\
  (isRemoteUpdate s = true ->
     handleMicStatusChange roomId userName true (Some p) s
       = (s, [PauseVideo])) /\
  (isRemoteUpdate s = false ->
   truthy roomId = true -> truthy userName = true ->
     snd (handleMicStatusChange roomId userName true (Some p) s)
       = [PauseVideo;
          UpdateVideoState roomId
            {| vs_videoId := videoId (roomState s); vs_isPlaying := false;
               vs_currentTime := or0 (getCurrentTime p) |}
            (clock s) userName] /\
     roomState (fst (handleMicStatusChange roomId userName true (Some p) s))
       = roomState s).
Proof.
  unfold handleMicStatusChange, sendPause.
  split; [reflexivity | split; [reflexivity | split]].
  - intros H. rewrite updateState_suppressed by exact H. reflexivity.
  - intros Hf Hr Hu. rewrite updateState_unsuppressed by assumption.
    split; reflexivity.
Qed.

Lemma mic_on_pauses_locally_and_reports_witness :
  handleMicStatusChange room alice true (player_at 10 PLAYING)
    (fst (roomListener alice (player_at 10 PLAYING)
            (from_bob "abc12345678" true 10 100) (mount 0)))
  = (fst (roomListener alice (player_at 10 PLAYING)
            (from_bob "abc12345678" true 10 100) (mount 0)),
     [PauseVideo]).
Proof.
  apply (proj1 (proj2 (proj2 (mic_on_pauses_locally_and_reports room alice
           (fst (roomListener alice (player_at 10 PLAYING)
                   (from_bob "abc12345678" true 10 100) (mount 0)))
           {| getCurrentTime := 10; getPlayerState := PLAYING |})))).
  reflexivity.
Defined.

Lemma no_publish_written_as roomId userName out :
  existsb is_publish out = false -> written_as roomId userName out.
Proof.
  intros H room0 vs stamp by_ Hin. exfalso.
  assert (Hex : existsb is_publish out = true).
  { apply existsb_exists. eexists. split; [exact Hin | reflexivity]. }
  congruence.
Qed.

Lemma written_as_app roomId userName out1 out2 :
  written_as roomId userName out1 -> written_as roomId userName out2 ->
  written_as roomId userName (out1 ++ out2).
Proof.
  intros H1 H2 room0 vs stamp by_ Hin.
  apply in_app_or in Hin. destruct Hin; [eapply H1 | eapply H2]; eassumption.
Qed.

Lemma updateState_written_as roomId userName newState s :
  written_as roomId userName (snd (updateState roomId userName newState s)) /\
  (truthy roomId && truthy userName = false ->
   snd (updateState roomId userName newState s) = []).
Proof.
  unfold updateState. split.
  - split_ifs; simpl; intros room0 vs stamp by_ Hin;
      [destruct Hin | destruct Hin | destruct Hin as [Hin|[]]].
    injection Hin as <- _ _ <-. split; reflexivity.
  - intros H. destruct (isRemoteUpdate s); [reflexivity|].
    destruct (truthy roomId), (truthy userName);
      try discriminate H; reflexivity.
Qed.

Lemma handleStateChange_written_as roomId userName state t s :
  written_as roomId userName
    (snd (handleStateChange roomId userName state t s)) /\
  (truthy roomId && truthy userName = false ->
   snd (handleStateChange roomId userName state t s) = []).
Proof.
  unfold handleStateChange, sendSeek, sendPlay, sendPause.
  destruct (isRemoteUpdate s);
    [split; [apply no_publish_written_as|]; reflexivity|].
  destruct (state =? PLAYING).
  - destruct (differs_by_more_than 2 t (lastReportedTime s)
              && negb (isSeeking s));
      match goal with
      | |- context [updateState ?r ?u ?n ?c] =>
          destruct (updateState_written_as r u n c) as [H1 H2];
          destruct (updateState r u n c)
      end; split; assumption.
  - destruct (state =? PAUSED).
    + destruct (differs_by_more_than 2 t (lastReportedTime s));
        match goal with
        | |- context [updateState ?r ?u ?n ?c] =>
            destruct (updateState_written_as r u n c) as [H1 H2];
            destruct (updateState r u n c)
        end; split; assumption.
    + split_ifs; (split; [apply no_publish_written_as|]; reflexivity).
Qed.

Lemma step_written_as roomId userName e s :
  written_as roomId userName (snd (step roomId userName e s)) /\
  (truthy roomId && truthy userName = false ->
   existsb is_publish (snd (step roomId userName e s)) = false).
Proof.
  destruct e; simpl.
  - split; [apply no_publish_written_as|intros _];
      apply roomListener_no_publish.
  - destruct (handleStateChange_written_as roomId userName state
                currentTime0 s) as [H1 H2].
    split; [exact H1|]. intros H. rewrite (H2 H). reflexivity.
  - destruct (updateState_written_as roomId userName
                {| ns_videoId := None; ns_isPlaying := Some true;
                   ns_currentTime := Some currentTime0 |} s) as [H1 H2].
    split; [exact H1|]. intros H. unfold sendPlay. rewrite (H2 H). reflexivity.
  - destruct (updateState_written_as roomId userName
                {| ns_videoId := None; ns_isPlaying := Some false;
                   ns_currentTime := Some currentTime0 |} s) as [H1 H2].
    split; [exact H1|]. intros H. unfold sendPause. rewrite (H2 H). reflexivity.
  - destruct (updateState_written_as roomId userName
                {| ns_videoId := None; ns_isPlaying := Some isPlaying0;
                   ns_currentTime := Some currentTime0 |} s) as [H1 H2].
    split; [exact H1|]. intros H. unfold sendSeek. rewrite (H2 H). reflexivity.
  - destruct (updateState_written_as roomId userName
                {| ns_videoId := Some videoId0; ns_isPlaying := Some true;
                   ns_currentTime := Some 0%Q |} s) as [H1 H2].
    split; [exact H1|]. intros H. unfold loadVideo. rewrite (H2 H). reflexivity.
  - split; [apply no_publish_written_as|intros _]; reflexivity.
  - split; [apply no_publish_written_as|intros _];
      apply timePasses_no_publish.
Qed.

(** X18. Along any sequence of events the client writes to the store
    only in its own room and under its own name; and a client whose room
    code or user name is empty never writes at all. *)
Theorem client_writes_only_as_itself
    (roomId userName : jsstring) (es : list Event) (s : Client) :
  written_as roomId userName (snd (run roomId userName es s)) /\
  (roomId = [] \/ userName = [] ->
   existsb is_publish (snd (run roomId userName es s)) = false).
Proof.
  revert s. induction es as [|e es IH]; intros s; simpl.
  - split; [apply no_publish_written_as|]; reflexivity.
  - destruct (step_written_as roomId userName e s) as [H1 H2].
    destruct (IH (fst (step roomId userName e s))) as [IH1 IH2].
    split; [apply written_as_app; assumption|].
    intros H. rewrite existsb_app, (IH2 H), H2; [reflexivity|].
    destruct H as [-> | ->]; [reflexivity | apply andb_false_r].
Qed.

Lemma client_writes_only_as_itself_witness :
  existsb is_publish
    (snd (run room [] [CallLoadVideo (js "abc12345678"); CallSendPlay 3]
            (mount 0)))
    = false.
Proof.
  apply (proj2 (client_writes_only_as_itself room []
                  [CallLoadVideo (js "abc12345678"); CallSendPlay 3]
                  (mount 0))).
  right. reflexivity.
Defined.
